(** * Autoencoder: dataset builders and the lossless codec interface

    The Python builders [create_bsds] (datasets/bsds/bsds.py) and
    [create_imagenet] (datasets/imagenet/imagenet.py) are embedded as
    programs of a state-and-exception monad over an abstract outside
    world.  The helpers of [tools.tools], [os], [numpy] and [pickle]
    that the builders call are fields of an interface record.

    The C++ units that lossless/setup.py compiles (Bitstream.cpp,
    compression.cpp, ...) are not part of the sources; the bit buffer
    and the header handling of the entry points are modelled from their
    specification. *)

From Stdlib Require Import ZArith List String Ascii Bool Lia.
From Stdlib.Strings Require Import Byte.
From stdpp Require Import base tactics option list.

Local Open Scope string_scope.

(* ===================================================================== *)
(** ** Python values: exceptions, results, arrays, paths                  *)
(* ===================================================================== *)

Module Py.

(** The exception classes that occur in the two builders. *)
Inductive exn : Type :=
| RuntimeError (msg : string)
| ValueError (msg : string)
| TypeError (msg : string)
| IndexError (msg : string).

(** What a call ends with: a value, or a raised exception. *)
Inductive outcome (A : Type) : Type :=
| Ok (a : A)
| Raise (e : exn).
Arguments Ok {A} a.
Arguments Raise {A} e.

(** The failures of the [tools.tools] helpers that the callers are
    written against: bsds.py documents that [rgb_to_ycbcr] checks the
    data-type and the dimensions of its input, and imagenet.py catches
    exactly [(TypeError, ValueError)] around the helper calls. *)
Inductive tls_error : Type :=
| TlsTypeError (msg : string)
| TlsValueError (msg : string).

Definition exn_of_tls (e : tls_error) : exn :=
  match e with
  | TlsTypeError m => TypeError m
  | TlsValueError m => ValueError m
  end.

(** [str(err)] of a helper failure. *)
Definition tls_message (e : tls_error) : string :=
  match e with
  | TlsTypeError m => m
  | TlsValueError m => m
  end.

(** The character [34], written without a quoted quote. *)
Definition dq : string := String (ascii_of_nat 34) EmptyString.
(** The line feed of ['...\n']. *)
Definition lf : string := String (ascii_of_nat 10) EmptyString.

(** ['"{}"'.format(s)] *)
Definition quoted (s : string) : string := dq ++ s ++ dq.

(** Truth value of a [str]: the empty string is false. *)
Definition truthy (s : string) : bool :=
  match s with
  | EmptyString => false
  | String _ _ => true
  end.

Definition starts_with_slash (s : string) : bool :=
  match s with
  | String c _ => Ascii.eqb c "/"%char
  | EmptyString => false
  end.

Fixpoint ends_with_slash (s : string) : bool :=
  match s with
  | EmptyString => false
  | String c EmptyString => Ascii.eqb c "/"%char
  | String _ rest => ends_with_slash rest
  end.

(** [os.path.join(a, b)] on a POSIX system. *)
Definition path_join (a b : string) : string :=
  if starts_with_slash b then b
  else if negb (truthy a) || ends_with_slash a then a ++ b
  else a ++ "/" ++ b.

(** A two-dimensional [uint8] array: its shape and its elements. *)
Record ndarray2 : Type := Array2 {
  rows : nat;
  cols : nat;
  at2 : nat -> nat -> byte
}.

Definition shape2 (a : ndarray2) : nat * nat := (rows a, cols a).

(** A [uint8] colour image of shape (height, width, 3): what
    [read_image_mode(path, 'RGB')] returns and what [rgb_to_ycbcr]
    takes and returns (bsds.py: it checks that its input has 3
    dimensions and that the 3rd dimension is equal to 3). *)
Record image3 : Type := Image3 {
  height : nat;
  width : nat;
  pix : nat -> nat -> nat -> byte
}.

(** A stack of planes along axis 0: the array [reference_uint8] of
    shape (n, r, c) and the array [luminances_uint8] of shape
    (n, w, w, 1), whose last axis has the single index 0. *)
Record stack : Type := Stack {
  planes : list ndarray2;
  plane_rows : nat;
  plane_cols : nat
}.

Definition shape_stack (a : stack) : nat * nat * nat :=
  (length (planes a), plane_rows a, plane_cols a).

Definition zeros2 (r c : nat) : ndarray2 :=
  Array2 r c (fun _ _ => x00%byte).

(** [numpy.zeros((n, r, c), dtype=numpy.uint8)] *)
Definition zeros_stack (n r c : nat) : stack :=
  Stack (repeat (zeros2 r c) n) r c.

(** [a[:, :, 0]] on an image of shape (height, width, 3). *)
Definition channel0 (a : image3) : ndarray2 :=
  Array2 (height a) (width a) (fun r c => pix a r c 0).

(** [a[r0:r1, c0:c1]] for non-negative bounds: numpy clips each bound
    to the extent of its axis. *)
Definition slice2 (r0 r1 c0 c1 : nat) (a : ndarray2) : ndarray2 :=
  Array2 (Nat.min r1 (rows a) - Nat.min r0 (rows a))
         (Nat.min c1 (cols a) - Nat.min c0 (cols a))
         (fun i j => at2 a (i + r0) (j + c0)).

(** [numpy.rot90(a)]: one counter-clockwise quarter turn;
    [rot90(a)[i, j] = a[j, cols - 1 - i]]. *)
Definition rot90 (a : ndarray2) : ndarray2 :=
  Array2 (cols a) (rows a) (fun i j => at2 a j (cols a - 1 - i)).

(** The value an assignment [dst[...] = v] stores in a destination of
    shape (r, c): [v] itself when the shapes agree, [v] stretched along
    its axes of extent 1 when numpy can broadcast it, and nothing
    (the assignment raises [ValueError]) otherwise. *)
Definition broadcast_to (r c : nat) (v : ndarray2) : option ndarray2 :=
  if Nat.eqb (rows v) r && Nat.eqb (cols v) c then Some v
  else if (Nat.eqb (rows v) r || Nat.eqb (rows v) 1)
          && (Nat.eqb (cols v) c || Nat.eqb (cols v) 1)
  then Some (Array2 r c (fun i j =>
               at2 v (if Nat.eqb (rows v) 1 then 0 else i)
                     (if Nat.eqb (cols v) 1 then 0 else j)))
  else None.

(** [a[i, ...] = v] for [0 <= i]: [IndexError] past the end of axis 0,
    [ValueError] when [v] does not broadcast to a plane. *)
Definition set_plane (i : nat) (v : ndarray2) (a : stack) : outcome stack :=
  if Nat.ltb i (length (planes a)) then
    match broadcast_to (plane_rows a) (plane_cols a) v with
    | Some p => Ok (Stack (<[i := p]> (planes a)) (plane_rows a) (plane_cols a))
    | None => Raise (ValueError "could not broadcast input array")
    end
  else Raise (IndexError "index is out of bounds for axis 0").

(** A slice bound of [a[start:stop]] on an axis of extent [n]: a
    negative bound counts from the end, and every bound is clipped. *)
Definition clip_bound (n : nat) (k : Z) : nat :=
  if (k <? 0)%Z then Z.to_nat (Z.max 0 (k + Z.of_nat n))
  else Nat.min (Z.to_nat k) n.

(** [l[start:stop]] on a Python sequence. *)
Definition py_slice {A : Type} (start stop : Z) (l : list A) : list A :=
  let a := clip_bound (length l) start in
  let b := clip_bound (length l) stop in
  take (b - a) (drop a l).

(** [a[start:stop, ...]] on axis 0 of a stack. *)
Definition slice_stack (start stop : Z) (a : stack) : stack :=
  Stack (py_slice start stop (planes a)) (plane_rows a) (plane_cols a).

End Py.

(* ===================================================================== *)
(** ** The outside world and the monad of the builders                    *)
(* ===================================================================== *)

Module Datasets.
Import Py.

(** What a builder does to the outside, in the order it does it. *)
Inductive event : Type :=
| Printed (line : string)
| ArchiveFetched (source_url folder tar : string)
| ArchiveExtracted (folder tar : string)
| ImageRead (path mode : string)
| NpySaved (path : string) (a : stack)
| PickleDumped (path : string) (l : list nat) (protocol : nat).

(** The functions of [os], [numpy], [pickle] and [tools.tools] that the
    builders call.  [tools/tools.py] is not part of the sources, so its
    functions are fields of this record; [World] is the file system
    together with numpy's random state.  Reading an image leaves the
    world as it is; the helpers that read, convert and crop an image
    fail with [TypeError] or [ValueError] or return; listing a folder,
    fetching or extracting an archive and writing a file return (input
    and output errors of the operating system are left out).  Arrays
    hold bytes: their dtype is [uint8]. *)
Record Env (World : Type) : Type := MkEnv {
  isfile : World -> string -> bool;
  listdir : World -> string -> list string;
  numpy_save : string -> stack -> World -> World;
  pickle_dump : string -> list nat -> World -> World;
  download_untar_archive : string -> string -> string -> World -> bool * World;
  untar_archive : string -> string -> World -> World;
  clean_sort_list_strings : list string -> list string -> list string;
  read_image_mode : World -> string -> string -> tls_error + image3;
  rgb_to_ycbcr : image3 -> tls_error + image3;
  crop_option_2d : ndarray2 -> Z -> bool -> World -> (tls_error + ndarray2) * World
}.
Arguments isfile {World} _ _ _.
Arguments listdir {World} _ _ _.
Arguments numpy_save {World} _ _ _ _.
Arguments pickle_dump {World} _ _ _ _.
Arguments download_untar_archive {World} _ _ _ _ _.
Arguments untar_archive {World} _ _ _ _.
Arguments clean_sort_list_strings {World} _ _ _.
Arguments read_image_mode {World} _ _ _ _.
Arguments rgb_to_ycbcr {World} _ _.
Arguments crop_option_2d {World} _ _ _ _ _.

Record state (World : Type) : Type := MkState {
  world : World;
  trace : list event
}.
Arguments MkState {World} _ _.
Arguments world {World} _.
Arguments trace {World} _.

(** A Python statement: from a state to a result and the state it
    leaves; what was done before a [raise] stays done. *)
Definition M (World A : Type) : Type := state World -> outcome A * state World.

Definition ret {World A : Type} (a : A) : M World A := fun st => (Ok a, st).

Definition raise {World A : Type} (e : exn) : M World A := fun st => (Raise e, st).

Definition bind {World A B : Type} (m : M World A) (k : A -> M World B) : M World B :=
  fun st =>
    match m st with
    | (Ok a, st') => k a st'
    | (Raise e, st') => (Raise e, st')
    end.

Declare Scope py_scope.
Delimit Scope py_scope with py.
Notation "x <- m ;; k" := (bind m (fun x => k))
  (at level 100, m at next level, right associativity) : py_scope.
Notation "m ;;; k" := (bind m (fun _ => k))
  (at level 100, right associativity) : py_scope.

Definition lift {World A : Type} (o : outcome A) : M World A := fun st => (o, st).

(** A helper of [tools.tools] called outside a [try]: its failure is
    the caller's. *)
Definition lift_tls {World A : Type} (r : tls_error + A) : M World A :=
  match r with
  | inl e => raise (exn_of_tls e)
  | inr a => ret a
  end.

Definition emit {World : Type} (e : event) : M World unit :=
  fun st => (Ok tt, MkState (world st) (trace st ++ [e])%list).

(** [print(line)] *)
Definition print {World : Type} (line : string) : M World unit := emit (Printed line).

(** [l[i]] for [0 <= i]. *)
Definition index {World A : Type} (l : list A) (i : nat) : M World A :=
  match l !! i with
  | Some a => ret a
  | None => raise (IndexError "list index out of range")
  end.

Section Builders.

Context {World : Type} (env : Env World).

Local Open Scope py_scope.

Definition os_path_isfile (path : string) : M World bool :=
  fun st => (Ok (isfile env (world st) path), st).

Definition os_listdir (path : string) : M World (list string) :=
  fun st => (Ok (listdir env (world st) path), st).

Definition numpy_save_m (path : string) (a : stack) : M World unit :=
  fun st => (Ok tt, MkState (numpy_save env path a (world st))
                            (trace st ++ [NpySaved path a])%list).

(** [with open(path, 'wb') as file: pickle.dump(l, file, protocol=2)] *)
Definition pickle_dump_m (path : string) (l : list nat) : M World unit :=
  fun st => (Ok tt, MkState (pickle_dump env path l (world st))
                            (trace st ++ [PickleDumped path l 2])%list).

Definition tls_download_untar_archive (source_url folder tar : string) : M World bool :=
  fun st =>
    let (b, w) := download_untar_archive env source_url folder tar (world st) in
    (Ok b, MkState w (trace st ++ [ArchiveFetched source_url folder tar])%list).

Definition tls_untar_archive (folder tar : string) : M World unit :=
  fun st => (Ok tt, MkState (untar_archive env folder tar (world st))
                            (trace st ++ [ArchiveExtracted folder tar])%list).

(** The call [tls.read_image_mode(path, mode)], failure as a value. *)
Definition tls_read_image_mode (path mode : string) : M World (tls_error + image3) :=
  fun st => (Ok (read_image_mode env (world st) path mode),
             MkState (world st) (trace st ++ [ImageRead path mode])%list).

(** The call [tls.crop_option_2d(a, width_crop, is_random)], failure
    as a value. *)
Definition tls_crop_option_2d (a : ndarray2) (width_crop : Z) (is_random : bool)
  : M World (tls_error + ndarray2) :=
  fun st =>
    let (r, w) := crop_option_2d env a width_crop is_random (world st) in
    (Ok r, MkState w (trace st)).

(* --------------------------------------------------------------------- *)
(** *** datasets/bsds/bsds.py                                              *)
(* --------------------------------------------------------------------- *)

Definition height_bsds : nat := 321.
Definition width_bsds : nat := 481.

(** [tls.rgb_to_ycbcr(tls.read_image_mode(path, 'RGB'))[:, :, 0]],
    outside a [try]. *)
Definition read_luminance (path : string) : M World ndarray2 :=
  r <- tls_read_image_mode path "RGB" ;;
  rgb_uint8 <- lift_tls r ;;
  ycbcr_uint8 <- lift_tls (rgb_to_ycbcr env rgb_uint8) ;;
  ret (channel0 ycbcr_uint8).

(** The body of [for i in range(100)], lines 81-101. *)
Definition bsds_body (path_to_folder_test : string) (list_names : list string)
    (i : nat) (acc : stack * list nat) : M World (stack * list nat) :=
  let (reference_uint8, list_rotation) := acc in
  name <- index list_names i ;;
  let path_to_file := path_join path_to_folder_test name in
  luminance_uint8 <- read_luminance path_to_file ;;
  let (height_image, width_image) := shape2 luminance_uint8 in
  if Nat.eqb height_image height_bsds && Nat.eqb width_image width_bsds then
    reference' <- lift (set_plane i (slice2 1 height_bsds 1 width_bsds luminance_uint8)
                                  reference_uint8) ;;
    ret (reference', list_rotation)
  else if Nat.eqb width_image height_bsds && Nat.eqb height_image width_bsds then
    reference' <- lift (set_plane i (rot90 (slice2 1 width_bsds 1 height_bsds luminance_uint8))
                                  reference_uint8) ;;
    ret (reference', (list_rotation ++ [i])%list)
  else
    raise (ValueError (quoted path_to_file ++ " is neither 321x481x3 nor 481x321x3.")).

Fixpoint bsds_loop (path_to_folder_test : string) (list_names : list string)
    (indices : list nat) (acc : stack * list nat) : M World (stack * list nat) :=
  match indices with
  | [] => ret acc
  | i :: rest =>
      acc' <- bsds_body path_to_folder_test list_names i acc ;;
      bsds_loop path_to_folder_test list_names rest acc'
  end.

(** Lines 54-106: the [else] branch of [create_bsds]. *)
Definition build_bsds (source_url path_to_folder_rgbs path_to_bsds
                       path_to_list_rotation path_to_tar : string) : M World unit :=
  (if truthy path_to_tar then
     is_downloaded <- tls_download_untar_archive source_url path_to_folder_rgbs path_to_tar ;;
     if (is_downloaded : bool) then
       print ("Successfully downloaded " ++ quoted path_to_tar ++ ".")
     else
       (print (quoted path_to_tar ++ " already exists.") ;;;
        print "Delete it manually to re-download it.")
   else ret tt) ;;;
  let reference_uint8 := zeros_stack 100 (height_bsds - 1) (width_bsds - 1) in
  let list_rotation := @nil nat in
  let path_to_folder_test := path_join path_to_folder_rgbs "BSDS300/images/test/" in
  listing <- os_listdir path_to_folder_test ;;
  let list_names := clean_sort_list_strings env listing ["jpg"] in
  if negb (Nat.eqb (length list_names) 100) then
    raise (RuntimeError "The number of BSDS RGB images to be read is not 100.")
  else
    acc <- bsds_loop path_to_folder_test list_names (seq 0 100)
                     (reference_uint8, list_rotation) ;;
    numpy_save_m path_to_bsds (fst acc) ;;;
    pickle_dump_m path_to_list_rotation (snd acc).

Definition create_bsds (source_url path_to_folder_rgbs path_to_bsds
                        path_to_list_rotation path_to_tar : string) : M World unit :=
  exists_bsds <- os_path_isfile path_to_bsds ;;
  exists_rotation <- (if (exists_bsds : bool) then os_path_isfile path_to_list_rotation
                      else ret false) ;;
  if (exists_rotation : bool) then
    print (quoted path_to_bsds ++ " and " ++ quoted path_to_list_rotation ++ " already exist.") ;;;
    print "Delete them manually to recreate the BSDS test set."
  else
    build_bsds source_url path_to_folder_rgbs path_to_bsds path_to_list_rotation path_to_tar.

(* --------------------------------------------------------------------- *)
(** *** datasets/imagenet/imagenet.py                                      *)
(* --------------------------------------------------------------------- *)

(** Lines 84-89, the body of the [try]: a [TypeError] or [ValueError]
    of a helper is the value [inl]. *)
Definition try_crop (path_to_rgb : string) (width_crop : Z) (is_random : bool)
  : M World (tls_error + ndarray2) :=
  r <- tls_read_image_mode path_to_rgb "RGB" ;;
  match r with
  | inl err => ret (inl err)
  | inr rgb_uint8 =>
      match rgb_to_ycbcr env rgb_uint8 with
      | inl err => ret (inl err)
      | inr ycbcr_uint8 => tls_crop_option_2d (channel0 ycbcr_uint8) width_crop is_random
      end
  end.

(** The loop [for name in list_names], lines 71-97, from the counter
    [i] and the array [luminances_uint8]; it returns both as the loop
    leaves them. *)
Fixpoint imagenet_loop (path_to_folder_rgbs : string) (width_crop nb_training nb_total : Z)
    (list_names : list string) (i : Z) (luminances_uint8 : stack) : M World (Z * stack) :=
  match list_names with
  | [] => ret (i, luminances_uint8)
  | name :: rest =>
      let path_to_rgb := path_join path_to_folder_rgbs name in
      let is_random := (i <? nb_training)%Z in
      r <- try_crop path_to_rgb width_crop is_random ;;
      match r with
      | inl err =>
          print (tls_message err) ;;;
          print (quoted path_to_rgb ++ " is skipped." ++ lf) ;;;
          imagenet_loop path_to_folder_rgbs width_crop nb_training nb_total
                        rest i luminances_uint8
      | inr crop_uint8 =>
          luminances' <- lift (set_plane (Z.to_nat i) crop_uint8 luminances_uint8) ;;
          let i' := (i + 1)%Z in
          if (i' =? nb_total)%Z then ret (i', luminances')
          else imagenet_loop path_to_folder_rgbs width_crop nb_training nb_total
                             rest i' luminances'
      end
  end.

(** [numpy.zeros((nb_total, width_crop, width_crop, 1), dtype=numpy.uint8)] *)
Definition numpy_zeros_crops (nb_total width_crop : Z) : M World stack :=
  if (nb_total <? 0)%Z || (width_crop <? 0)%Z then
    raise (ValueError "negative dimensions are not allowed")
  else ret (zeros_stack (Z.to_nat nb_total) (Z.to_nat width_crop) (Z.to_nat width_crop)).

(** Lines 57-111: the [else] branch of [create_imagenet]. *)
Definition build_imagenet (path_to_folder_rgbs : string) (width_crop nb_training nb_validation : Z)
    (path_to_training path_to_validation path_to_tar : string) : M World unit :=
  (if truthy path_to_tar then tls_untar_archive path_to_folder_rgbs path_to_tar
   else ret tt) ;;;
  let nb_total := (nb_training + nb_validation)%Z in
  luminances_uint8 <- numpy_zeros_crops nb_total width_crop ;;
  listing <- os_listdir path_to_folder_rgbs ;;
  let list_names := clean_sort_list_strings env listing ["jpg"; "JPEG"; "png"] in
  r <- imagenet_loop path_to_folder_rgbs width_crop nb_training nb_total
                     list_names 0%Z luminances_uint8 ;;
  let (i, luminances') := (r : Z * stack) in
  if negb (i =? nb_total)%Z then
    raise (RuntimeError ("There are not enough ImageNet RGB images at "
                         ++ quoted path_to_folder_rgbs
                         ++ " to create the ImageNet training and validation sets."))
  else
    let training_data := slice_stack 0 nb_training luminances' in
    let validation_data := slice_stack nb_training nb_total luminances' in
    numpy_save_m path_to_training training_data ;;;
    numpy_save_m path_to_validation validation_data.

Definition create_imagenet (path_to_folder_rgbs : string) (width_crop nb_training nb_validation : Z)
    (path_to_training path_to_validation path_to_tar : string) : M World unit :=
  exists_training <- os_path_isfile path_to_training ;;
  exists_validation <- (if (exists_training : bool) then os_path_isfile path_to_validation
                        else ret false) ;;
  if (exists_validation : bool) then
    print (quoted path_to_training ++ " and " ++ quoted path_to_validation ++ " already exist.") ;;;
    print "Delete them manually to recreate the ImageNet training and validation sets."
  else
    build_imagenet path_to_folder_rgbs width_crop nb_training nb_validation
                   path_to_training path_to_validation path_to_tar.

End Builders.

End Datasets.

(* ===================================================================== *)
(** ** Reading the builders' inputs and outputs                           *)
(* ===================================================================== *)

Module DatasetsSpec.
Import Py Datasets.

(* --------------------------------------------------------------------- *)
(** *** The images of [create_bsds]                                       *)
(* --------------------------------------------------------------------- *)

(** An event that writes a file. *)
Definition is_write (e : event) : bool :=
  match e with
  | NpySaved _ _ | PickleDumped _ _ _ => true
  | _ => false
  end.

(** Events that write no file. *)
Definition quiet (evs : list event) : Prop :=
  Forall (fun e => is_write e = false) evs.

Definition is_upright (l : ndarray2) : bool :=
  Nat.eqb (rows l) height_bsds && Nat.eqb (cols l) width_bsds.

Definition is_sideways (l : ndarray2) : bool :=
  Nat.eqb (cols l) height_bsds && Nat.eqb (rows l) width_bsds.

(** [plane] is the 321x481 image [l] without its first row and its
    first column. *)
Definition cropped_upright (l plane : ndarray2) : Prop :=
  shape2 l = (321, 481) /\ shape2 plane = (320, 480) /\
  forall r c, r < 320 -> c < 480 -> at2 plane r c = at2 l (r + 1) (c + 1).

(** [plane] is the 481x321 image [l] without its first row and its
    first column, turned by [numpy.rot90]: row [r] of the plane is
    column [320 - r] of [l], read downwards. *)
Definition cropped_sideways (l plane : ndarray2) : Prop :=
  shape2 l = (481, 321) /\ shape2 plane = (320, 480) /\
  forall r c, r < 320 -> c < 480 -> at2 plane r c = at2 l (c + 1) (320 - r).

Section Bsds.

Context {World : Type} (env : Env World).

(** The luminance the builders compute from the file at [path]:
    [tls.rgb_to_ycbcr(tls.read_image_mode(path, 'RGB'))[:, :, 0]], or
    the failure of the helper that fails. *)
Definition luminance_of (w : World) (path : string) : tls_error + ndarray2 :=
  match read_image_mode env w path "RGB" with
  | inl e => inl e
  | inr rgb_uint8 =>
      match rgb_to_ycbcr env rgb_uint8 with
      | inl e => inl e
      | inr ycbcr_uint8 => inr (channel0 ycbcr_uint8)
      end
  end.

(** The world in which [create_bsds] lists and reads the images. *)
Definition world_after_fetch (source_url folder tar : string) (w : World) : World :=
  if truthy tar then snd (download_untar_archive env source_url folder tar w) else w.

Definition test_folder (folder : string) : string :=
  path_join folder "BSDS300/images/test/".

(** The sorted jpg listing of the test folder. *)
Definition bsds_names (w : World) (folder : string) : list string :=
  clean_sort_list_strings env (listdir env w (test_folder folder)) ["jpg"].

(** The luminance of the [i]-th image of [list_names], when it is read. *)
Definition luminance_at (w : World) (path_to_folder_test : string)
    (list_names : list string) (i : nat) : option ndarray2 :=
  match list_names !! i with
  | Some name =>
      match luminance_of w (path_join path_to_folder_test name) with
      | inr l => Some l
      | inl _ => None
      end
  | None => None
  end.

Definition rotated (w : World) (path_to_folder_test : string)
    (list_names : list string) (i : nat) : bool :=
  match luminance_at w path_to_folder_test list_names i with
  | Some l => is_sideways l
  | None => false
  end.

(** The result of one turn of the loop of [create_bsds] as a function
    of the world it reads. *)
Definition bsds_step (w : World) (path_to_folder_test : string) (list_names : list string)
    (i : nat) (acc : stack * list nat) : outcome (stack * list nat) :=
  match list_names !! i with
  | None => Raise (IndexError "list index out of range")
  | Some name =>
      let path_to_file := path_join path_to_folder_test name in
      match luminance_of w path_to_file with
      | inl e => Raise (exn_of_tls e)
      | inr l =>
          if is_upright l then
            match set_plane i (slice2 1 height_bsds 1 width_bsds l) (fst acc) with
            | Ok r => Ok (r, snd acc)
            | Raise e => Raise e
            end
          else if is_sideways l then
            match set_plane i (rot90 (slice2 1 width_bsds 1 height_bsds l)) (fst acc) with
            | Ok r => Ok (r, (snd acc ++ [i])%list)
            | Raise e => Raise e
            end
          else Raise (ValueError (quoted path_to_file
                                  ++ " is neither 321x481x3 nor 481x321x3."))
      end
  end.

Fixpoint bsds_steps (w : World) (path_to_folder_test : string) (list_names : list string)
    (indices : list nat) (acc : stack * list nat) : outcome (stack * list nat) :=
  match indices with
  | [] => Ok acc
  | i :: rest =>
      match bsds_step w path_to_folder_test list_names i acc with
      | Ok acc' => bsds_steps w path_to_folder_test list_names rest acc'
      | Raise e => Raise e
      end
  end.

(** The three ways in which the turn for index [i] raises. *)
Definition turn_fails (w : World) (folder : string) (names : list string)
    (i : nat) (e : exn) : Prop :=
  names !! i = None
  \/ (exists name e', names !! i = Some name
        /\ luminance_of w (path_join folder name) = inl e' /\ e = exn_of_tls e')
  \/ (exists name l msg, names !! i = Some name
        /\ luminance_of w (path_join folder name) = inr l
        /\ is_upright l = false /\ is_sideways l = false /\ e = ValueError msg).

(** The plane stored for a luminance image of either admitted shape. *)
Definition stored_plane (l : ndarray2) : ndarray2 :=
  if is_upright l then slice2 1 height_bsds 1 width_bsds l
  else rot90 (slice2 1 width_bsds 1 height_bsds l).

End Bsds.

(* --------------------------------------------------------------------- *)
(** *** The crops of [create_imagenet]                                    *)
(* --------------------------------------------------------------------- *)

Section Imagenet.

Context {World : Type} (env : Env World).

(** The world in which [create_imagenet] lists and reads the images. *)
Definition world_after_untar (folder tar : string) (w : World) : World :=
  if truthy tar then untar_archive env folder tar w else w.

(** The sorted listing of the images of the folder. *)
Definition imagenet_names (w : World) (folder : string) : list string :=
  clean_sort_list_strings env (listdir env w folder) ["jpg"; "JPEG"; "png"].

(** Reading the file at [path], converting it and cropping its
    luminance: the crop or the failure, and the world afterwards. *)
Definition attempt (w : World) (path : string) (width_crop : Z) (is_random : bool)
  : (tls_error + ndarray2) * World :=
  match luminance_of env w path with
  | inl e => (inl e, w)
  | inr l => crop_option_2d env l width_crop is_random w
  end.

(** The crops of the images of [names] that are read and cropped
    without error, in the order of [names]; [count] crops were made
    before, and a crop is random while fewer than [nb_training] were. *)
Fixpoint crops_of (folder : string) (width_crop nb_training : Z)
    (names : list string) (count : Z) (w : World) : list ndarray2 :=
  match names with
  | [] => []
  | name :: rest =>
      match attempt w (path_join folder name) width_crop (count <? nb_training)%Z with
      | (inl _, w') => crops_of folder width_crop nb_training rest count w'
      | (inr c, w') => c :: crops_of folder width_crop nb_training rest (count + 1)%Z w'
      end
  end.

End Imagenet.

(** A concrete outside world for examples: the files that exist, and a
    counter standing for numpy's random state. *)
Record toy_world : Type := ToyWorld {
  existing : list string;
  draws : nat
}.

Definition toy_image (h w : nat) : image3 := Image3 h w (fun _ _ _ => x07%byte).

(** A toy environment: [listing] is what every directory lists, an
    image file named in [shapes] has the shape given there and any
    other file is not an RGB image; a crop is the top-left corner when
    the image is large enough. *)
Definition toy_env (listing : list string) (shapes : list (string * (nat * nat)))
  : Env toy_world :=
  MkEnv toy_world
    (fun w path => existsb (String.eqb path) (existing w))
    (fun _ _ => listing)
    (fun path _ w => ToyWorld (path :: existing w) (draws w))
    (fun path _ w => ToyWorld (path :: existing w) (draws w))
    (fun _ _ tar w => (negb (existsb (String.eqb tar) (existing w)),
                       ToyWorld (tar :: existing w) (draws w)))
    (fun _ _ w => w)
    (fun names _ => names)
    (fun _ path _ =>
       match find (fun entry => String.eqb path (fst entry)) shapes with
       | Some (_, (h, w)) => inr (toy_image h w)
       | None => inl (TlsValueError "The image mode is not RGB.")
       end)
    (fun rgb => inr rgb)
    (fun a width_crop is_random w =>
       let n := Z.to_nat width_crop in
       if Nat.leb n (rows a) && Nat.leb n (cols a)
       then (inr (Array2 n n (at2 a)),
             ToyWorld (existing w) (if is_random then S (draws w) else draws w))
       else (inl (TlsValueError "The crop is larger than the image."), w)).

(** A state in which nothing exists yet and nothing was done. *)
Definition fresh : state toy_world := MkState (ToyWorld [] 0) [].

(** A test folder that lists one image, of 10 rows and 10 columns. *)
Definition one_small_image : Env toy_world :=
  toy_env ["a.jpg"] [("d/BSDS300/images/test/a.jpg", (10, 10))].

(** A test folder of 99 images of 321 rows and one of 481 rows. *)
Definition hundred_images : Env toy_world :=
  toy_env (repeat "l.jpg" 99 ++ ["p.jpg"])%list
          [("d/BSDS300/images/test/l.jpg", (321, 481));
           ("d/BSDS300/images/test/p.jpg", (481, 321))].

(** A folder of five files, the second of which is not an RGB image. *)
Definition five_files : Env toy_world :=
  toy_env ["a.png"; "bad.png"; "b.png"; "c.png"; "d.png"]
          [("data/a.png", (20, 24)); ("data/b.png", (16, 16));
           ("data/c.png", (30, 20)); ("data/d.png", (20, 20))].








End DatasetsSpec.

(* ===================================================================== *)
(** ** Reading the builders' traces                                       *)
(* ===================================================================== *)

Module DatasetsTraces.
Import Py Datasets DatasetsSpec.

(** The paths of the image files that events read, in order. *)
Definition image_reads (evs : list event) : list string :=
  flat_map (fun e => match e with
                     | ImageRead path _ => [path]
                     | _ => []
                     end) evs.

(** The lines that events print, in order. *)
Definition printed (evs : list event) : list string :=
  flat_map (fun e => match e with
                     | Printed line => [line]
                     | _ => []
                     end) evs.

(** The event of reading the image [name] of [folder] as RGB. *)
Definition read_event (folder name : string) : event :=
  ImageRead (path_join folder name) "RGB".

(** Every plane of the array has the extent that the array gives to
    its planes: it is a box of shape
    (number of planes, [plane_rows], [plane_cols]). *)
Definition well_shaped (a : stack) : Prop :=
  Forall (fun p => shape2 p = (plane_rows a, plane_cols a)) (planes a).

(** The extent that the array gives to its planes. *)
Definition shape2_of_planes (a : stack) : nat * nat := (plane_rows a, plane_cols a).

Section Traces.

Context {World : Type} (env : Env World).

(** The file system keeps what is written: after [numpy.save] or
    [pickle.dump] the file at the path exists, and a file that existed
    before still does. *)
Definition keeps_files : Prop :=
  (forall path a w, isfile env (numpy_save env path a w) path = true)
  /\ (forall path l w, isfile env (pickle_dump env path l w) path = true)
  /\ (forall path a w other,
        isfile env w other = true -> isfile env (numpy_save env path a w) other = true)
  /\ (forall path l w other,
        isfile env w other = true -> isfile env (pickle_dump env path l w) other = true).

(** bsds.py, lines 54-62: what [create_bsds] does about the archive. *)
Definition fetch_events (source_url folder tar : string) (w : World) : list event :=
  if truthy tar then
    ArchiveFetched source_url folder tar
    :: (if fst (download_untar_archive env source_url folder tar w)
        then [Printed ("Successfully downloaded " ++ quoted tar ++ ".")]
        else [Printed (quoted tar ++ " already exists.");
              Printed "Delete it manually to re-download it."])
  else [].

(** bsds.py, lines 86-101: the error with which the turn of the image
    [name] ends, if it ends with one. *)
Definition turn_error (w : World) (path_to_folder_test name : string) : option exn :=
  let path_to_file := path_join path_to_folder_test name in
  match luminance_of env w path_to_file with
  | inl e => Some (exn_of_tls e)
  | inr l =>
      if is_upright l || is_sideways l then None
      else Some (ValueError (quoted path_to_file
                             ++ " is neither 321x481x3 nor 481x321x3."))
  end.

(** imagenet.py, lines 57-59: what [create_imagenet] does about the
    archive. *)
Definition untar_events (folder tar : string) : list event :=
  if truthy tar then [ArchiveExtracted folder tar] else [].

End Traces.

(** A test folder of 100 images whose third image is 100x100. *)
Definition third_image_square : Env toy_world :=
  toy_env (["l.jpg"; "l.jpg"; "w.jpg"] ++ repeat "l.jpg" 97)%list
          [("d/BSDS300/images/test/l.jpg", (321, 481));
           ("d/BSDS300/images/test/w.jpg", (100, 100))].

End DatasetsTraces.

(* ===================================================================== *)
(** ** The bit buffer of the lossless coder                               *)
(* ===================================================================== *)

Module Bitstream.

Inductive error : Type := ExhaustedInput.

(** The byte of value [n mod 256]. *)
Definition byte_of_N (n : N) : byte :=
  match Byte.of_N (n mod 256) with
  | Some b => b
  | None => x00
  end.

(** Modelled from the spec: the writer of Bitstream.cpp, which is not
    part of the sources.  It is an append-only bit buffer backed by
    bytes: the bytes that are complete, oldest first, and the bits of
    the byte being filled, held as a number with their count. *)
Record writer : Type := Writer {
  stored : list byte;
  pending : N;
  count : nat
}.

Definition empty : writer := Writer [] 0 0.

(** Modelled from the spec: [writeBit(b)] of Bitstream.cpp appends one
    bit; a byte is filled from its most significant bit and joins the
    buffer with its eighth bit. *)
Definition writeBit (b : bool) (w : writer) : writer :=
  let acc := (2 * pending w + N.b2n b)%N in
  if Nat.eqb (count w) 7 then Writer (stored w ++ [byte_of_N acc]) 0 0
  else Writer (stored w) acc (S (count w)).

Definition writeBits (bs : list bool) (w : writer) : writer :=
  fold_left (fun w b => writeBit b w) bs w.

(** Modelled from the spec: [flush()] of Bitstream.cpp pads the final
    partial byte with the fixed bit value [pad] and returns the byte
    buffer. *)
Definition flush (pad : bool) (w : writer) : list byte :=
  stored (writeBits (repeat pad ((8 - count w) mod 8)) w).

(** Modelled from the spec: the reader of Bitstream.cpp, a byte buffer
    and a read position in bits that only advances. *)
Record reader : Type := Reader {
  buffer : list byte;
  position : nat
}.

Definition open (buf : list byte) : reader := Reader buf 0.

(** The bits that remain to be read. *)
Definition remaining (r : reader) : nat := 8 * length (buffer r) - position r.

(** Modelled from the spec: [readBit()] of Bitstream.cpp returns the
    next bit, most significant bit of a byte first, and advances; it
    fails with [ExhaustedInput] past the last byte. *)
Definition readBit (r : reader) : error + bool * reader :=
  match buffer r !! (position r / 8) with
  | Some b =>
      inr (N.testbit (Byte.to_N b) (N.of_nat (7 - position r mod 8)),
           Reader (buffer r) (S (position r)))
  | None => inl ExhaustedInput
  end.

(** [n] calls of [readBit], the bits in the order of the calls. *)
Fixpoint readBits (n : nat) (r : reader) : error + list bool * reader :=
  match n with
  | 0 => inr ([], r)
  | S n' =>
      match readBit r with
      | inl e => inl e
      | inr (b, r') =>
          match readBits n' r' with
          | inl e => inl e
          | inr (bs, r'') => inr (b :: bs, r'')
          end
      end
  end.

(** The [n] low bits of [v], most significant first. *)
Definition bits_msb (n : nat) (v : N) : list bool :=
  (fun k => N.testbit v (N.of_nat (n - 1 - k))) <$> seq 0 n.

Definition byte_bits (b : byte) : list bool := bits_msb 8 (Byte.to_N b).

(** The bits a byte buffer holds, in reading order. *)
Definition flat (buf : list byte) : list bool := flat_map byte_bits buf.

(** The bits a writer holds, in writing order. *)
Definition contents (w : writer) : list bool :=
  flat (stored w) ++ bits_msb (count w) (pending w).

End Bitstream.

(* ===================================================================== *)
(** ** The header of a compressed buffer                                  *)
(* ===================================================================== *)

Module Compression.

(** The failures the entry points report. *)
Inductive error : Type :=
| AlphabetViolation
| CorruptStream
| MalformedHeader
| ExhaustedInput
| InvalidState.

(** Modelled from the spec: the header of compression.cpp, which is not
    part of the sources.  Its fields, in their fixed order: the number
    of dimensions (the length of [extents]), the extent of each
    dimension, the alphabet bound and the tag of the decomposition
    scheme. *)
Record header : Type := Header {
  extents : list N;
  bound : N;
  tag : N
}.

(** The number of bytes of a header field. *)
Definition field_bytes : nat := 4.

(** The [k] low bytes of [v], most significant first. *)
Fixpoint be_bytes (k : nat) (v : N) : list byte :=
  match k with
  | 0 => []
  | S k' => be_bytes k' (v / 256) ++ [Bitstream.byte_of_N v]
  end.

(** The number that bytes spell, most significant first. *)
Definition be_value (bs : list byte) : N :=
  fold_left (fun acc b => (acc * 256 + Byte.to_N b)%N) bs 0%N.

(** Modelled from the spec: a header field is an integer of fixed
    width; it is written here as [field_bytes] bytes, most significant
    first. *)
Definition put_field (v : N) : list byte := be_bytes field_bytes v.

(** Reading a field: the value and the bytes after it, or nothing when
    the buffer ends inside the field. *)
Definition get_field (bytes : list byte) : option (N * list byte) :=
  if Nat.leb field_bytes (length bytes)
  then Some (be_value (take field_bytes bytes), drop field_bytes bytes)
  else None.

Fixpoint get_fields (n : nat) (bytes : list byte) : option (list N * list byte) :=
  match n with
  | 0 => Some ([], bytes)
  | S n' =>
      match get_field bytes with
      | None => None
      | Some (v, rest) =>
          match get_fields n' rest with
          | None => None
          | Some (vs, rest') => Some (v :: vs, rest')
          end
      end
  end.

(** The grids are two-dimensional, or three-dimensional with a channel
    dimension. *)
Definition supported_rank (n : N) : bool := N.eqb n 2 || N.eqb n 3.

(** Modelled from the spec: the header is written in a fixed binary
    layout. *)
Definition serialize_header (h : header) : list byte :=
  put_field (N.of_nat (length (extents h)))
  ++ flat_map put_field (extents h)
  ++ put_field (bound h)
  ++ put_field (tag h).

(** Modelled from the spec: reading the header back; nothing when the
    buffer ends inside the header or the number of dimensions is not a
    supported one.  The bytes after the header are the payload. *)
Definition parse_header (bytes : list byte) : option (header * list byte) :=
  match get_field bytes with
  | None => None
  | Some (rank, rest) =>
      if supported_rank rank then
        match get_fields (N.to_nat rank) rest with
        | None => None
        | Some (dims, rest') =>
            match get_field rest' with
            | None => None
            | Some (b, rest'') =>
                match get_field rest'' with
                | None => None
                | Some (t, payload) => Some (Header dims b t, payload)
                end
            end
        end
      else None
  end.

(** Every field fits its width. *)
Definition fits (h : header) : bool :=
  N.ltb (N.of_nat (length (extents h))) (2 ^ 32)
  && forallb (fun d => N.ltb d (2 ^ 32)) (extents h)
  && N.ltb (bound h) (2 ^ 32) && N.ltb (tag h) (2 ^ 32).

(** A configuration for examples: the alphabet bound that the caller
    declares; a header is consistent with it when it records the same
    bound and the scheme tag 1. *)
Definition toy_consistent (cfg : N) (h : header) : bool :=
  N.eqb (bound h) cfg && N.eqb (tag h) 1.

(** A payload decoder for examples: the grid is the payload itself. *)
Definition toy_payload (cfg : N) (h : header) (payload : list byte)
  : error + list byte :=
  inr payload.

Section Facade.

(** What the specification leaves open: the configuration and the
    grids, the largest alphabet bound that is supported, what else
    makes a header consistent with a configuration, and the decoder of
    the payload (LosslessCoder, BinaryArithmeticCoder and Bitstream
    behind it). *)
Variables (config grid : Type).
Variable max_bound : N.
Variable consistent : config -> header -> bool.
Variable decode_payload : config -> header -> list byte -> error + grid.

(** Modelled from the spec: header sanity, all dimensions positive and
    the bound within the supported range. *)
Definition sane (h : header) : bool :=
  supported_rank (N.of_nat (length (extents h)))
  && forallb (fun d => N.ltb 0 d) (extents h)
  && N.leb 1 (bound h) && N.leb (bound h) max_bound.

Definition valid (cfg : config) (h : header) : bool :=
  sane h && consistent cfg h.

(** Modelled from the spec: [decode(bytes, config)] of compression.cpp
    deserializes the header, validates it before touching the payload
    and fails with [MalformedHeader] on an unreadable or inconsistent
    header; otherwise it delegates the payload. *)
Definition decode (bytes : list byte) (cfg : config) : error + grid :=
  match parse_header bytes with
  | None => inl MalformedHeader
  | Some (h, payload) =>
      if valid cfg h then decode_payload cfg h payload
      else inl MalformedHeader
  end.

End Facade.

End Compression.

(* ===================================================================== *)
(** ** Properties of the dataset builders                                 *)
(* ===================================================================== *)

Module DatasetsFacts.
Import Py Datasets DatasetsSpec.

Local Open Scope py_scope.
Local Open Scope list_scope.

(* --------------------------------------------------------------------- *)
(** *** Python and numpy primitives on small inputs                        *)
(* --------------------------------------------------------------------- *)

(** [os.path.join('data', 'BSDS300/images/test/')], then a file name;
    an absolute second part replaces the first. *)
Example path_join_samples :
  path_join (path_join "data" "BSDS300/images/test/") "3096.jpg"
  = "data/BSDS300/images/test/3096.jpg"
  /\ path_join "data/" "a.png" = "data/a.png"
  /\ path_join "data" "/tmp/a.png" = "/tmp/a.png".
Proof. repeat split. Qed.

(** [l[0:2]], [l[2:5]], [l[0:-1]] and [l[3:2]] for [l = [10, 20, 30]]. *)
Example py_slice_samples :
  py_slice 0 2 [10; 20; 30]%Z = [10; 20]%Z
  /\ py_slice 2 5 [10; 20; 30]%Z = [30]%Z
  /\ py_slice 0 (-1) [10; 20; 30]%Z = [10; 20]%Z
  /\ py_slice 3 2 [10; 20; 30]%Z = [].
Proof. repeat split. Qed.

(** Storing a plane past the end of axis 0 raises [IndexError]; a plane
    of another shape that numpy cannot stretch raises [ValueError]. *)
Example set_plane_samples :
  (exists msg, set_plane 0 (zeros2 2 2) (zeros_stack 0 2 2) = Raise (IndexError msg))
  /\ (exists msg, set_plane 0 (zeros2 3 2) (zeros_stack 1 2 2) = Raise (ValueError msg))
  /\ shape_stack (zeros_stack 100 320 480) = (100, 320, 480).
Proof. repeat split; eexists; reflexivity. Qed.

(* --------------------------------------------------------------------- *)
(** *** Both builders leave existing outputs alone                         *)
(* --------------------------------------------------------------------- *)

(** C8. When the files at [path_to_bsds] and [path_to_list_rotation]
    both exist, [create_bsds] returns normally, leaves the outside
    world as it was and does nothing but print: it saves no array,
    dumps no pickle, fetches no archive and reads no image.  The same
    holds of [create_imagenet] when the files at [path_to_training] and
    [path_to_validation] both exist. *)
Theorem builders_leave_existing_outputs
    (World : Type) (env : Env World) (st : state World)
    (source_url bsds_folder path_to_bsds path_to_list_rotation bsds_tar : string)
    (imagenet_folder : string) (width_crop nb_training nb_validation : Z)
    (path_to_training path_to_validation imagenet_tar : string) :
  (isfile env (world st) path_to_bsds = true ->
   isfile env (world st) path_to_list_rotation = true ->
   exists lines,
     create_bsds env source_url bsds_folder path_to_bsds path_to_list_rotation bsds_tar st
     = (Ok tt, MkState (world st) (trace st ++ map Printed lines)))
  /\
  (isfile env (world st) path_to_training = true ->
   isfile env (world st) path_to_validation = true ->
   exists lines,
     create_imagenet env imagenet_folder width_crop nb_training nb_validation
                     path_to_training path_to_validation imagenet_tar st
     = (Ok tt, MkState (world st) (trace st ++ map Printed lines))).
Proof.
  split; intros H1 H2.
  - eexists [_; _].
    unfold create_bsds, bind, os_path_isfile.
    rewrite H1. cbv beta iota. rewrite H2.
    cbv [print emit world trace]. now rewrite <- app_assoc.
  - eexists [_; _].
    unfold create_imagenet, bind, os_path_isfile.
    rewrite H1. cbv beta iota. rewrite H2.
    cbv [print emit world trace]. now rewrite <- app_assoc.
Qed.

(** At a concrete state in which all four outputs exist. *)
Lemma builders_leave_existing_outputs_witness :
  (exists lines,
     create_bsds (toy_env [] []) "url" "data" "bsds.npy" "rotation.pkl" "bsds.tgz"
                 (MkState (ToyWorld ["bsds.npy"; "rotation.pkl"; "tr.npy"; "va.npy"] 0) [])
     = (Ok tt, MkState (ToyWorld ["bsds.npy"; "rotation.pkl"; "tr.npy"; "va.npy"] 0)
                       (map Printed lines)))
  /\
  (exists lines,
     create_imagenet (toy_env [] []) "data" 16 3 2 "tr.npy" "va.npy" "imagenet.tar"
                 (MkState (ToyWorld ["bsds.npy"; "rotation.pkl"; "tr.npy"; "va.npy"] 0) [])
     = (Ok tt, MkState (ToyWorld ["bsds.npy"; "rotation.pkl"; "tr.npy"; "va.npy"] 0)
                       (map Printed lines))).
Proof.
  destruct (builders_leave_existing_outputs toy_world (toy_env [] [])
              (MkState (ToyWorld ["bsds.npy"; "rotation.pkl"; "tr.npy"; "va.npy"] 0) [])
              "url" "data" "bsds.npy" "rotation.pkl" "bsds.tgz"
              "data" 16 3 2 "tr.npy" "va.npy" "imagenet.tar") as [Hb Hi].
  split.
  - apply Hb; reflexivity.
  - apply Hi; reflexivity.
Defined.


(* --------------------------------------------------------------------- *)
(** *** What [create_bsds] builds                                          *)
(* --------------------------------------------------------------------- *)

(** [numpy.rot90([[1, 2], [3, 4]])] is [[[2, 4], [1, 3]]]. *)
Example rot90_2x2 :
  let a := Array2 2 2 (fun i j => match i, j with
                                  | 0, 0 => x01 | 0, _ => x02
                                  | _, 0 => x03 | _, _ => x04
                                  end%byte) in
  shape2 (rot90 a) = (2, 2) /\
  (at2 (rot90 a) 0 0, at2 (rot90 a) 0 1, at2 (rot90 a) 1 0, at2 (rot90 a) 1 1)
  = (x02, x04, x01, x03)%byte.
Proof. split; reflexivity. Qed.

Section BsdsFacts.

Context {World : Type} (env : Env World).

Local Arguments String.append : simpl never.
Local Arguments quoted : simpl never.

Lemma read_luminance_run (path : string) (st : state World) :
  read_luminance env path st
  = (match luminance_of env (world st) path with
     | inl e => Raise (exn_of_tls e)
     | inr l => Ok l
     end,
     MkState (world st) (trace st ++ [ImageRead path "RGB"])).
Proof.
  unfold read_luminance, luminance_of, bind, tls_read_image_mode. cbn.
  destruct (read_image_mode env (world st) path "RGB") as [e | rgb]; cbn; [reflexivity |].
  destruct (rgb_to_ycbcr env rgb); reflexivity.
Qed.

(** One turn of the loop computes [bsds_step] of the world it starts
    in, leaves the world alone and writes nothing. *)
Lemma bsds_body_run folder names i acc (st : state World) :
  exists evs,
    bsds_body env folder names i acc st
    = (bsds_step env (world st) folder names i acc, MkState (world st) (trace st ++ evs))
    /\ quiet evs.
Proof.
  destruct acc as [ref rot]. unfold bsds_body, bsds_step, index.
  destruct (names !! i) as [name |].
  2:{ exists []. rewrite app_nil_r. destruct st. split; [reflexivity | constructor]. }
  exists [ImageRead (path_join folder name) "RGB"].
  split; [| repeat constructor].
  unfold bind at 1. unfold ret at 1. cbv beta iota.
  unfold bind at 1. rewrite read_luminance_run.
  destruct (luminance_of env (world st) (path_join folder name)) as [e | l].
  { reflexivity. }
  cbv beta iota. unfold shape2, is_upright, is_sideways. cbn [fst snd].
  destruct (Nat.eqb (rows l) height_bsds && Nat.eqb (cols l) width_bsds).
  { unfold bind, lift, ret.
    destruct (set_plane i (slice2 1 height_bsds 1 width_bsds l) ref); reflexivity. }
  destruct (Nat.eqb (cols l) height_bsds && Nat.eqb (rows l) width_bsds).
  { unfold bind, lift, ret.
    destruct (set_plane i (rot90 (slice2 1 width_bsds 1 height_bsds l)) ref); reflexivity. }
  reflexivity.
Qed.

Lemma bsds_loop_run folder names indices :
  forall acc (st : state World),
  exists evs,
    bsds_loop env folder names indices acc st
    = (bsds_steps env (world st) folder names indices acc,
       MkState (world st) (trace st ++ evs))
    /\ quiet evs.
Proof.
  induction indices as [| i rest IH]; intros acc st.
  - exists []. rewrite app_nil_r. destruct st. split; [reflexivity | constructor].
  - cbn [bsds_loop bsds_steps].
    destruct (bsds_body_run folder names i acc st) as (evs1 & Hrun & Hq1).
    unfold bind at 1. rewrite Hrun.
    destruct (bsds_step env (world st) folder names i acc) as [acc' | e].
    + destruct (IH acc' (MkState (world st) (trace st ++ evs1))) as (evs2 & Hrest & Hq2).
      exists (evs1 ++ evs2). rewrite Hrest. cbn [world trace].
      rewrite app_assoc. split; [reflexivity | apply Forall_app; now split].
    + exists evs1. split; [reflexivity | assumption].
Qed.

Lemma set_plane_exact i v (ref : stack) :
  i < length (planes ref) -> rows v = plane_rows ref -> cols v = plane_cols ref ->
  set_plane i v ref = Ok (Stack (<[i := v]> (planes ref)) (plane_rows ref) (plane_cols ref)).
Proof.
  intros Hi Hr Hc. unfold set_plane, broadcast_to.
  apply Nat.ltb_lt in Hi. rewrite Hi, Hr, Hc, !Nat.eqb_refl. reflexivity.
Qed.

Lemma set_plane_ok_lt i v (ref ref' : stack) :
  set_plane i v ref = Ok ref' -> i < length (planes ref).
Proof.
  unfold set_plane. destruct (Nat.ltb i (length (planes ref))) eqn:Hi; [| discriminate].
  intros _. now apply Nat.ltb_lt.
Qed.

Lemma upright_not_sideways l : is_upright l = true -> is_sideways l = false.
Proof.
  unfold is_upright, is_sideways, height_bsds, width_bsds.
  intros [Hr Hc]%andb_true_iff. apply Nat.eqb_eq in Hr, Hc. rewrite Hr, Hc. reflexivity.
Qed.

Lemma stored_plane_shape l :
  is_upright l || is_sideways l = true ->
  rows (stored_plane l) = 320 /\ cols (stored_plane l) = 480.
Proof.
  unfold stored_plane. destruct (is_upright l) eqn:Hu.
  - intros _. unfold is_upright, height_bsds, width_bsds in Hu.
    apply andb_true_iff in Hu as [Hr%Nat.eqb_eq Hc%Nat.eqb_eq].
    cbn [slice2 rows cols]. rewrite Hr, Hc. split; reflexivity.
  - cbn [orb]. unfold is_sideways, height_bsds, width_bsds.
    intros [Hc%Nat.eqb_eq Hr%Nat.eqb_eq]%andb_true_iff.
    cbn [rot90 slice2 rows cols]. rewrite Hr, Hc. split; reflexivity.
Qed.

Lemma bsds_step_ok w folder names i ref rot ref' rot' :
  bsds_step env w folder names i (ref, rot) = Ok (ref', rot') ->
  plane_rows ref = 320 -> plane_cols ref = 480 ->
  exists l,
    luminance_at env w folder names i = Some l
    /\ is_upright l || is_sideways l = true
    /\ i < length (planes ref)
    /\ ref' = Stack (<[i := stored_plane l]> (planes ref)) 320 480
    /\ rot' = if is_sideways l then rot ++ [i] else rot.
Proof.
  intros Hstep Hr Hc. unfold bsds_step, luminance_at in *.
  destruct (names !! i) as [name |]; [| discriminate].
  destruct (luminance_of env w (path_join folder name)) as [e | l]; [discriminate |].
  exists l. split; [reflexivity |]. cbn [fst snd] in Hstep.
  destruct (is_upright l) eqn:Hu.
  - pose proof (stored_plane_shape l) as Hs. rewrite Hu in Hs. destruct (Hs eq_refl) as [Hs1 Hs2].
    unfold stored_plane in Hs1, Hs2. rewrite Hu in Hs1, Hs2.
    destruct (set_plane i _ ref) as [r |] eqn:Hset; [| discriminate].
    pose proof (set_plane_ok_lt _ _ _ _ Hset) as Hlt.
    rewrite set_plane_exact in Hset by congruence.
    rewrite (upright_not_sideways l Hu). unfold stored_plane. rewrite Hu.
    inversion Hstep; subst. inversion Hset; subst.
    rewrite Hr, Hc. repeat split; auto.
  - destruct (is_sideways l) eqn:Hsw; [| discriminate].
    pose proof (stored_plane_shape l) as Hs. rewrite Hu, Hsw in Hs.
    destruct (Hs eq_refl) as [Hs1 Hs2].
    unfold stored_plane in Hs1, Hs2. rewrite Hu in Hs1, Hs2.
    destruct (set_plane i _ ref) as [r |] eqn:Hset; [| discriminate].
    pose proof (set_plane_ok_lt _ _ _ _ Hset) as Hlt.
    rewrite set_plane_exact in Hset by congruence.
    unfold stored_plane. rewrite Hu.
    inversion Hstep; subst. inversion Hset; subst.
    rewrite Hr, Hc. repeat split; auto.
Qed.

Lemma bsds_step_raise w folder names i ref rot e :
  bsds_step env w folder names i (ref, rot) = Raise e ->
  plane_rows ref = 320 -> plane_cols ref = 480 -> i < length (planes ref) ->
  turn_fails env w folder names i e.
Proof.
  intros Hstep Hr Hc Hlt. unfold bsds_step, turn_fails in *.
  destruct (names !! i) as [name |] eqn:Hn; [| now left].
  right. destruct (luminance_of env w (path_join folder name)) as [e' | l] eqn:Hl.
  { left. exists name, e'. inversion Hstep. repeat split; auto. }
  cbn [fst snd] in Hstep.
  destruct (is_upright l) eqn:Hu.
  { pose proof (stored_plane_shape l) as Hs. rewrite Hu in Hs. destruct (Hs eq_refl) as [Hs1 Hs2].
    unfold stored_plane in Hs1, Hs2. rewrite Hu in Hs1, Hs2.
    rewrite set_plane_exact in Hstep by congruence. discriminate. }
  destruct (is_sideways l) eqn:Hsw.
  { pose proof (stored_plane_shape l) as Hs. rewrite Hu, Hsw in Hs.
    destruct (Hs eq_refl) as [Hs1 Hs2].
    unfold stored_plane in Hs1, Hs2. rewrite Hu in Hs1, Hs2.
    rewrite set_plane_exact in Hstep by congruence. discriminate. }
  right. inversion Hstep. exists name, l. eexists. repeat split; auto.
Qed.

Lemma rotated_of_luminance w folder names i l :
  luminance_at env w folder names i = Some l ->
  rotated env w folder names i = is_sideways l.
Proof. intros H. unfold rotated. now rewrite H. Qed.

(** A run of turns that ends well has stored the plane of every index
    it visited and has appended the sideways ones, in order. *)
Lemma bsds_steps_ok w folder names indices :
  forall ref rot ref' rot',
    bsds_steps env w folder names indices (ref, rot) = Ok (ref', rot') ->
    plane_rows ref = 320 -> plane_cols ref = 480 ->
    plane_rows ref' = 320 /\ plane_cols ref' = 480
    /\ length (planes ref') = length (planes ref)
    /\ rot' = rot ++ List.filter (rotated env w folder names) indices
    /\ (forall i, i ∈ indices ->
          exists l, luminance_at env w folder names i = Some l
                    /\ is_upright l || is_sideways l = true
                    /\ planes ref' !! i = Some (stored_plane l))
    /\ (forall j, j ∉ indices -> planes ref' !! j = planes ref !! j).
Proof.
  induction indices as [| i rest IH]; intros ref rot ref' rot' Hrun Hr Hc.
  - cbn in Hrun. inversion Hrun; subst. cbn [List.filter]. rewrite app_nil_r.
    repeat split; auto. intros i Hi. now apply elem_of_nil in Hi.
  - cbn [bsds_steps] in Hrun.
    destruct (bsds_step env w folder names i (ref, rot)) as [[ref1 rot1] |] eqn:Hstep;
      [| discriminate].
    destruct (bsds_step_ok _ _ _ _ _ _ _ _ Hstep Hr Hc) as (l & Hl & Hshape & Hlt & -> & ->).
    destruct (IH _ _ _ _ Hrun eq_refl eq_refl) as (Hr' & Hc' & Hlen & Hrot & Hin & Hout).
    cbn [planes] in Hlen, Hout. rewrite length_insert in Hlen.
    repeat split; auto.
    + rewrite Hrot. cbn [List.filter]. rewrite (rotated_of_luminance _ _ _ _ _ Hl).
      destruct (is_sideways l); [now rewrite <- app_assoc | reflexivity].
    + intros j [-> | Hj]%elem_of_cons; [| now apply Hin].
      destruct (decide (i ∈ rest)) as [Hi | Hi]; [now apply Hin |].
      exists l. repeat split; auto.
      rewrite (Hout _ Hi). now apply list_lookup_insert_eq.
    + intros j [Hne Hj]%not_elem_of_cons.
      rewrite (Hout _ Hj). now apply list_lookup_insert_ne.
Qed.

(** A run of turns that raises raises in the turn of one of its
    indices. *)
Lemma bsds_steps_raise w folder names indices :
  forall ref rot e,
    bsds_steps env w folder names indices (ref, rot) = Raise e ->
    plane_rows ref = 320 -> plane_cols ref = 480 ->
    (forall i, i ∈ indices -> i < length (planes ref)) ->
    exists i, i ∈ indices /\ turn_fails env w folder names i e.
Proof.
  induction indices as [| i rest IH]; intros ref rot e Hrun Hr Hc Hlt.
  - discriminate.
  - cbn [bsds_steps] in Hrun.
    destruct (bsds_step env w folder names i (ref, rot)) as [[ref1 rot1] | e1] eqn:Hstep.
    + destruct (bsds_step_ok _ _ _ _ _ _ _ _ Hstep Hr Hc) as (l & _ & _ & _ & -> & _).
      destruct (IH _ _ _ Hrun eq_refl eq_refl) as (j & Hj & Hfail).
      { intros j Hj. cbn [planes]. rewrite length_insert. apply Hlt. now right. }
      exists j. split; [now right | assumption].
    + inversion Hrun; subst. exists i. split; [now left |].
      eapply bsds_step_raise; eauto. apply Hlt. now left.
Qed.

(** What the building branch of [create_bsds] does, in terms of
    [bsds_steps]. *)
Lemma build_bsds_run source_url folder path_to_bsds path_to_list_rotation path_to_tar
    (st : state World) :
  let w := world_after_fetch env source_url folder path_to_tar (world st) in
  let names := bsds_names env w folder in
  exists evs,
    quiet evs /\
    build_bsds env source_url folder path_to_bsds path_to_list_rotation path_to_tar st
    = if negb (Nat.eqb (length names) 100) then
        (Raise (RuntimeError "The number of BSDS RGB images to be read is not 100."),
         MkState w (trace st ++ evs))
      else
        match bsds_steps env w (test_folder folder) names (seq 0 100)
                         (zeros_stack 100 320 480, []) with
        | Ok acc =>
            (Ok tt,
             MkState (pickle_dump env path_to_list_rotation (snd acc)
                        (numpy_save env path_to_bsds (fst acc) w))
                     (trace st ++ evs ++ [NpySaved path_to_bsds (fst acc);
                                          PickleDumped path_to_list_rotation (snd acc) 2]))
        | Raise e => (Raise e, MkState w (trace st ++ evs))
        end.
Proof.
  intros w names.
  assert (Hfetch : exists evs0,
    quiet evs0 /\
    (if truthy path_to_tar then
       is_downloaded <- tls_download_untar_archive env source_url folder path_to_tar ;;
       if (is_downloaded : bool) then
         print ("Successfully downloaded " ++ quoted path_to_tar ++ ".")%string
       else
         (print (quoted path_to_tar ++ " already exists.")%string ;;;
          print "Delete it manually to re-download it.")
     else ret tt) st = (Ok tt, MkState w (trace st ++ evs0))).
  { subst w. unfold world_after_fetch. destruct (truthy path_to_tar).
    - unfold bind, tls_download_untar_archive.
      destruct (download_untar_archive env source_url folder path_to_tar (world st))
        as [[|] w1]; cbn [snd].
      + eexists [_; _]. split; cycle 1.
        { cbv [print emit world trace]. now rewrite <- app_assoc. }
        repeat constructor.
      + eexists [_; _; _]. split; cycle 1.
        { cbv [print emit world trace]. now rewrite <- !app_assoc. }
        repeat constructor.
    - exists []. split; [constructor |]. rewrite app_nil_r. now destruct st. }
  destruct Hfetch as (evs0 & Hq0 & Hfetch).
  unfold build_bsds. unfold bind at 1. rewrite Hfetch.
  unfold bind at 1, os_listdir. cbn [world trace].
  fold (test_folder folder). fold (bsds_names env w folder). fold names.
  destruct (negb (Nat.eqb (length names) 100)).
  { exists evs0. split; [assumption | reflexivity]. }
  destruct (bsds_loop_run (test_folder folder) names (seq 0 100)
              (zeros_stack 100 (height_bsds - 1) (width_bsds - 1), [])
              (MkState w (trace st ++ evs0))) as (evs1 & Hloop & Hq1).
  unfold bind at 1. rewrite Hloop. cbn [world trace].
  change (height_bsds - 1) with 320. change (width_bsds - 1) with 480.
  exists (evs0 ++ evs1). split; [apply Forall_app; now split |].
  destruct (bsds_steps env w (test_folder folder) names (seq 0 100)
              (zeros_stack 100 320 480, [])) as [acc | e].
  - unfold bind, numpy_save_m, pickle_dump_m. cbn [world trace].
    now rewrite <- !app_assoc.
  - now rewrite <- app_assoc.
Qed.

Lemma create_bsds_builds source_url folder path_to_bsds path_to_list_rotation path_to_tar
    (st : state World) :
  isfile env (world st) path_to_bsds && isfile env (world st) path_to_list_rotation = false ->
  create_bsds env source_url folder path_to_bsds path_to_list_rotation path_to_tar st
  = build_bsds env source_url folder path_to_bsds path_to_list_rotation path_to_tar st.
Proof.
  intros H. unfold create_bsds, bind, os_path_isfile.
  destruct (isfile env (world st) path_to_bsds); cbn [andb] in H.
  - cbv beta iota. now rewrite H.
  - reflexivity.
Qed.

Lemma stored_plane_spec l :
  is_upright l || is_sideways l = true ->
  if is_sideways l then cropped_sideways l (stored_plane l)
  else cropped_upright l (stored_plane l).
Proof.
  intros Hshape. destruct (stored_plane_shape l Hshape) as [Hrows Hcols].
  destruct (is_sideways l) eqn:Hsw.
  - assert (Hu : is_upright l = false).
    { destruct (is_upright l) eqn:Hu; [| reflexivity].
      apply upright_not_sideways in Hu. congruence. }
    unfold is_sideways, height_bsds, width_bsds in Hsw.
    apply andb_true_iff in Hsw as [Hc%Nat.eqb_eq Hr%Nat.eqb_eq].
    unfold cropped_sideways, shape2. rewrite Hrows, Hcols, Hr, Hc.
    repeat split. intros r c Hrlt Hclt.
    unfold stored_plane. rewrite Hu. cbn [rot90 slice2 at2 rows cols].
    rewrite Hc. unfold height_bsds. cbn [Nat.min]. f_equal; lia.
  - rewrite orb_false_r in Hshape.
    pose proof Hshape as Hu. unfold is_upright, height_bsds, width_bsds in Hshape.
    apply andb_true_iff in Hshape as [Hr%Nat.eqb_eq Hc%Nat.eqb_eq].
    unfold cropped_upright, shape2. rewrite Hrows, Hcols, Hr, Hc.
    repeat split. intros r c Hrlt Hclt.
    unfold stored_plane. rewrite Hu. reflexivity.
Qed.

Lemma shape2_neither l :
  (shape2 l <> (321, 481) /\ shape2 l <> (481, 321))
  <-> (is_upright l = false /\ is_sideways l = false).
Proof.
  unfold shape2, is_upright, is_sideways, height_bsds, width_bsds.
  rewrite !andb_false_iff, !Nat.eqb_neq. split.
  - intros [H1 H2]. split.
    + destruct (Nat.eq_dec (rows l) 321); [right | left]; congruence.
    + destruct (Nat.eq_dec (cols l) 321); [right | left]; congruence.
  - intros [H1 H2]. split; intros Heq; inversion Heq; lia.
Qed.

(** C9, as amended.  In a run of [create_bsds] that builds the set
    (the two outputs do not both exist), with [names] the sorted jpg
    listing of the test folder:
    - a [RuntimeError] is raised iff [names] does not hold exactly 100
      names;
    - provided every listed image is read and converted without error,
      a [ValueError] is raised iff [names] holds exactly 100 names and
      some image is neither 321x481 nor 481x321;
    - if the run returns, its last two effects are to save an array of
      shape (100, 320, 480) at [path_to_bsds] and to dump at
      [path_to_list_rotation] the list of the indices of the 481x321
      images, in increasing order; slice [i] of the array is the
      luminance of the [i]-th image without its first row and first
      column, turned by [numpy.rot90] exactly when [i] is in the list. *)
Theorem create_bsds_outcome source_url folder path_to_bsds path_to_list_rotation path_to_tar
    (st : state World) :
  isfile env (world st) path_to_bsds && isfile env (world st) path_to_list_rotation = false ->
  let w := world_after_fetch env source_url folder path_to_tar (world st) in
  let names := bsds_names env w folder in
  let res := create_bsds env source_url folder path_to_bsds path_to_list_rotation
                         path_to_tar st in
  ((exists msg, fst res = Raise (RuntimeError msg)) <-> length names <> 100)
  /\
  ((forall name, name ∈ names ->
      exists l, luminance_of env w (path_join (test_folder folder) name) = inr l) ->
   ((exists msg, fst res = Raise (ValueError msg)) <->
    length names = 100 /\
    exists name l,
      name ∈ names
      /\ luminance_of env w (path_join (test_folder folder) name) = inr l
      /\ shape2 l <> (321, 481) /\ shape2 l <> (481, 321)))
  /\
  (fst res = Ok tt ->
   exists earlier reference_uint8 list_rotation,
     trace (snd res)
     = trace st ++ earlier ++ [NpySaved path_to_bsds reference_uint8;
                               PickleDumped path_to_list_rotation list_rotation 2]
     /\ quiet earlier
     /\ shape_stack reference_uint8 = (100, 320, 480)
     /\ list_rotation = List.filter (rotated env w (test_folder folder) names) (seq 0 100)
     /\ forall i, i < 100 ->
          exists l plane,
            luminance_at env w (test_folder folder) names i = Some l
            /\ planes reference_uint8 !! i = Some plane
            /\ if rotated env w (test_folder folder) names i
               then cropped_sideways l plane
               else cropped_upright l plane).
Proof.
  intros Hbuild w names res.
  destruct (build_bsds_run source_url folder path_to_bsds path_to_list_rotation
              path_to_tar st) as (evs & Hq & Hrun).
  fold w names in Hrun.
  assert (Hres : res = build_bsds env source_url folder path_to_bsds
                                  path_to_list_rotation path_to_tar st)
    by (now apply create_bsds_builds).
  rewrite Hrun in Hres. clear Hrun.
  destruct (Nat.eqb (length names) 100) eqn:Hlen; cbn [negb] in Hres.
  2:{ (* the listing does not hold 100 names *)
    apply Nat.eqb_neq in Hlen. rewrite Hres. cbn [fst snd].
    split; [| split].
    - split; [auto | eauto].
    - intros _. split; [intros [msg Hmsg]; discriminate | intros [Hl _]; contradiction].
    - discriminate. }
  apply Nat.eqb_eq in Hlen.
  pose proof (bsds_steps_ok w (test_folder folder) names (seq 0 100)
                (zeros_stack 100 320 480) []) as Hok.
  pose proof (bsds_steps_raise w (test_folder folder) names (seq 0 100)
                (zeros_stack 100 320 480) []) as Hraise.
  assert (Hlookup : forall i, i < 100 -> exists name, names !! i = Some name).
  { intros i Hi. apply lookup_lt_is_Some_2. lia. }
  assert (Hfail : forall e,
             bsds_steps env w (test_folder folder) names (seq 0 100)
                        (zeros_stack 100 320 480, []) = Raise e ->
             exists i, i < 100 /\
               ((exists name e', names !! i = Some name
                   /\ luminance_of env w (path_join (test_folder folder) name) = inl e'
                   /\ e = exn_of_tls e')
                \/ (exists name l msg, names !! i = Some name
                   /\ luminance_of env w (path_join (test_folder folder) name) = inr l
                   /\ is_upright l = false /\ is_sideways l = false /\ e = ValueError msg))).
  { intros e He. destruct (Hraise e He eq_refl eq_refl) as (i & Hi & Hturn).
    - intros i Hi. apply elem_of_seq in Hi. cbn [zeros_stack planes].
      rewrite repeat_length. lia.
    - apply elem_of_seq in Hi. exists i. split; [lia |].
      destruct Hturn as [Hnone | Hturn]; [| exact Hturn].
      destruct (Hlookup i) as [name Hname]; [lia | congruence]. }
  destruct (bsds_steps env w (test_folder folder) names (seq 0 100)
              (zeros_stack 100 320 480, [])) as [[ref rot] | e] eqn:Hsteps.
  - (* every turn went well *)
    destruct (Hok ref rot eq_refl eq_refl eq_refl)
      as (Hr & Hc & Hlenp & Hrot & Hin & _).
    rewrite Hres. cbn [fst snd trace].
    split; [| split].
    + split; [intros [msg Hmsg]; discriminate | intros Hne; contradiction].
    + intros _. split; [intros [msg Hmsg]; discriminate |].
      intros (_ & name & l & Hname & Hl & Hshape).
      apply list_elem_of_lookup in Hname as [i Hi].
      assert (Hi100 : i < 100) by (apply lookup_lt_Some in Hi; lia).
      destruct (Hin i) as (l' & Hl' & Hgood & _); [apply elem_of_seq; lia |].
      unfold luminance_at in Hl'. rewrite Hi, Hl in Hl'. inversion Hl'; subst l'.
      apply shape2_neither in Hshape as [Hu Hs]. rewrite Hu, Hs in Hgood. discriminate.
    + intros _. exists evs, ref, rot.
      split; [reflexivity |]. split; [exact Hq |]. split; [| split].
      * unfold shape_stack. rewrite Hlenp, Hr, Hc. cbn [zeros_stack planes].
        now rewrite repeat_length.
      * rewrite Hrot. apply app_nil_l.
      * intros i Hi.
        destruct (Hin i) as (l & Hl & Hgood & Hplane); [apply elem_of_seq; lia |].
        exists l, (stored_plane l).
        split; [exact Hl |]. split; [exact Hplane |].
        rewrite (rotated_of_luminance _ _ _ _ _ Hl). now apply stored_plane_spec.
  - (* some turn raised *)
    destruct (Hfail e eq_refl) as (i & Hi & Hturn).
    rewrite Hres. cbn [fst snd].
    split; [| split].
    + split; [| intros Hne; contradiction].
      intros [msg Hmsg]. inversion Hmsg; subst e.
      destruct Hturn as [(name & e' & _ & _ & He') | (name & l & m & _ & _ & _ & _ & He')];
        [destruct e' |]; discriminate.
    + intros Hread. split.
      * intros [msg Hmsg]. inversion Hmsg; subst e. split; [assumption |].
        destruct Hturn as [(name & e' & Hname & Hl & _) | (name & l & m & Hname & Hl & Hu & Hs & _)].
        { destruct (Hread name) as [l Hl']; [eapply list_elem_of_lookup_2; eauto | congruence]. }
        exists name, l. repeat split.
        { eapply list_elem_of_lookup_2; eauto. }
        { assumption. }
        { now apply shape2_neither. }
        { now apply shape2_neither. }
      * intros _.
        destruct Hturn as [(name & e' & Hname & Hl & _) | (name & l & m & _ & _ & _ & _ & He')].
        { destruct (Hread name) as [l Hl']; [eapply list_elem_of_lookup_2; eauto | congruence]. }
        exists m. now rewrite He'.
    + discriminate.
Qed.

End BsdsFacts.

(** C9 as stated fails: a listing that holds a single image, of shape
    10x10, makes [create_bsds] raise [RuntimeError] and not
    [ValueError], although that image is neither 321x481 nor 481x321. *)
Lemma create_bsds_value_error_not_iff :
  ~ ((exists msg,
        fst (create_bsds one_small_image "url" "d" "bsds.npy" "rot.pkl" "" fresh)
        = Raise (ValueError msg))
     <->
     (exists name l,
        name ∈ bsds_names one_small_image (world fresh) "d"
        /\ luminance_of one_small_image (world fresh) (path_join (test_folder "d") name)
           = inr l
        /\ shape2 l <> (321, 481) /\ shape2 l <> (481, 321))).
Proof.
  intros [_ Hclaim].
  destruct Hclaim as [msg Hmsg].
  - exists "a.jpg", (channel0 (toy_image 10 10)).
    split; [apply list_elem_of_singleton; reflexivity |].
    split; [reflexivity |].
    split; intros Heq; vm_compute in Heq; discriminate Heq.
  - vm_compute in Hmsg. discriminate Hmsg.
Qed.

(** The run on that listing, spelled out. *)
Example create_bsds_one_small_image :
  fst (create_bsds one_small_image "url" "d" "bsds.npy" "rot.pkl" "" fresh)
  = Raise (RuntimeError "The number of BSDS RGB images to be read is not 100.").
Proof. vm_compute. reflexivity. Qed.

Lemma hundred_images_read :
  forall name,
    name ∈ bsds_names hundred_images
             (world_after_fetch hundred_images "url" "d" "" (world fresh)) "d" ->
    exists l,
      luminance_of hundred_images
        (world_after_fetch hundred_images "url" "d" "" (world fresh))
        (path_join (test_folder "d") name) = inr l.
Proof.
  intros name Hin.
  change (name ∈ (repeat "l.jpg" 99 ++ ["p.jpg"])) in Hin.
  apply elem_of_app in Hin as [Hin | Hin].
  - apply list_elem_of_In, repeat_spec in Hin. subst name. eexists. reflexivity.
  - apply list_elem_of_singleton in Hin. subst name. eexists. reflexivity.
Qed.

(** The amended C9 at a folder of 99 images of 321x481 and a last one
    of 481x321: the run raises neither error, saves an array of shape
    (100, 320, 480) and dumps the rotation list [[99]]. *)
Lemma create_bsds_outcome_witness :
  ((exists msg,
      fst (create_bsds hundred_images "url" "d" "bsds.npy" "rot.pkl" "" fresh)
      = Raise (RuntimeError msg))
   <-> length (bsds_names hundred_images (world fresh) "d") <> 100)
  /\
  ((exists msg,
      fst (create_bsds hundred_images "url" "d" "bsds.npy" "rot.pkl" "" fresh)
      = Raise (ValueError msg))
   <->
   length (bsds_names hundred_images (world fresh) "d") = 100 /\
   exists name l,
     name ∈ bsds_names hundred_images (world fresh) "d"
     /\ luminance_of hundred_images (world fresh) (path_join (test_folder "d") name) = inr l
     /\ shape2 l <> (321, 481) /\ shape2 l <> (481, 321))
  /\
  (exists earlier reference_uint8,
     trace (snd (create_bsds hundred_images "url" "d" "bsds.npy" "rot.pkl" "" fresh))
     = earlier ++ [NpySaved "bsds.npy" reference_uint8; PickleDumped "rot.pkl" [99] 2]
     /\ quiet earlier
     /\ shape_stack reference_uint8 = (100, 320, 480)).
Proof.
  destruct (create_bsds_outcome hundred_images "url" "d" "bsds.npy" "rot.pkl" "" fresh
              eq_refl) as (Hruntime & Hvalue & Hok).
  split; [exact Hruntime |].
  split; [exact (Hvalue hundred_images_read) |].
  destruct Hok as (earlier & ref & rot & Htrace & Hquiet & Hshape & Hrot & _).
  { vm_compute. reflexivity. }
  exists earlier, ref. split; [| split; assumption].
  rewrite Htrace, Hrot. reflexivity.
Defined.


(* --------------------------------------------------------------------- *)
(** *** What [create_imagenet] builds                                      *)
(* --------------------------------------------------------------------- *)

Section ImagenetFacts.

Context {World : Type} (env : Env World).

Local Arguments String.append : simpl never.
Local Arguments quoted : simpl never.

Lemma try_crop_run path width_crop is_random (st : state World) :
  try_crop env path width_crop is_random st
  = (Ok (fst (attempt env (world st) path width_crop is_random)),
     MkState (snd (attempt env (world st) path width_crop is_random))
             (trace st ++ [ImageRead path "RGB"])).
Proof.
  unfold try_crop, attempt, luminance_of, bind, tls_read_image_mode, tls_crop_option_2d.
  cbn [world trace].
  destruct (read_image_mode env (world st) path "RGB") as [e | rgb]; [reflexivity |].
  destruct (rgb_to_ycbcr env rgb) as [e | ycbcr]; [reflexivity |].
  cbn [world trace].
  destruct (crop_option_2d env (channel0 ycbcr) width_crop is_random (world st)).
  reflexivity.
Qed.


Section Loop.

Variables (folder : string) (width_crop nb_training : Z).

(** The contract of [tls.crop_option_2d]: a crop is [width_crop] wide
    and [width_crop] high. *)
Hypothesis crop_shape :
  forall a b w c w',
    crop_option_2d env a width_crop b w = (inr c, w') ->
    shape2 c = (Z.to_nat width_crop, Z.to_nat width_crop).

Lemma attempt_shape w path b c w' :
  attempt env w path width_crop b = (inr c, w') ->
  rows c = Z.to_nat width_crop /\ cols c = Z.to_nat width_crop.
Proof.
  unfold attempt. destruct (luminance_of env w path) as [e | l]; [discriminate |].
  intros H. apply crop_shape in H. unfold shape2 in H. inversion H. auto.
Qed.

(** The loop from [length done] crops already stored, with room for
    [rest]: it stores the next crops in order until the room is used
    up or the listing ends, and writes no file. *)
Lemma imagenet_loop_run names :
  forall (done rest : list ndarray2) (st : state World),
    rest <> [] ->
    let n := Z.to_nat width_crop in
    let cs := crops_of env folder width_crop nb_training names
                       (Z.of_nat (length done)) (world st) in
    let k := Nat.min (length cs) (length rest) in
    exists st' evs,
      imagenet_loop env folder width_crop nb_training
                    (Z.of_nat (length done + length rest))
                    names (Z.of_nat (length done)) (Stack (done ++ rest) n n) st
      = (Ok (Z.of_nat (length done + k),
             Stack (done ++ take k cs ++ drop k rest) n n), st')
      /\ trace st' = trace st ++ evs /\ quiet evs.
Proof.
  induction names as [| name names IH]; intros done rest st Hrest n cs k.
  - exists st, []. subst n cs k. cbn [crops_of length Nat.min imagenet_loop take drop].
    rewrite Nat.add_0_r.
    split; [reflexivity | split; [now rewrite app_nil_r | constructor]].
  - cbn [imagenet_loop]. unfold bind at 1. rewrite try_crop_run.
    subst n cs k. cbn [crops_of]. cbn [world].
    destruct (attempt env (world st) (path_join folder name) width_crop
                (Z.of_nat (length done) <? nb_training)%Z) as [[e | c] w1] eqn:Hatt;
      cbn [fst snd].
    + (* the image is skipped *)
      set (st1 := MkState w1 (((trace st ++ [ImageRead (path_join folder name) "RGB"])
                                ++ [Printed (tls_message e)])
                               ++ [Printed (quoted (path_join folder name) ++ " is skipped."
                                            ++ lf)%string])).
      destruct (IH done rest st1 Hrest) as (st' & evs & Hrun & Htrace & Hq).
      exists st', ([ImageRead (path_join folder name) "RGB"; Printed (tls_message e);
                    Printed (quoted (path_join folder name) ++ " is skipped." ++ lf)%string]
                   ++ evs).
      split; [| split].
      * unfold bind, print, emit. cbn [world trace]. exact Hrun.
      * rewrite Htrace. subst st1. cbn [trace]. now rewrite <- !app_assoc.
      * apply Forall_app. split; [repeat constructor | exact Hq].
    + (* the crop is stored *)
      destruct rest as [| z rest']; [contradiction |].
      destruct (attempt_shape _ _ _ _ _ Hatt) as [Hrows Hcols].
      unfold bind at 1, lift at 1. rewrite Nat2Z.id.
      rewrite set_plane_exact; cbn [planes plane_rows plane_cols]; try assumption.
      2:{ rewrite length_app. cbn [length]. lia. }
      replace (<[length done := c]> (done ++ z :: rest')) with ((done ++ [c]) ++ rest').
      2:{ rewrite <- app_assoc. cbn [app].
          replace (length done) with (length done + 0) at 1 by lia.
          now rewrite insert_app_r. }
      set (st1 := MkState w1 (trace st ++ [ImageRead (path_join folder name) "RGB"])).
      cbv zeta. destruct rest' as [| z' rest'']; cbn [length].
      * (* the array is full: break *)
        assert (E : (Z.of_nat (length done) + 1 =? Z.of_nat (length done + 1))%Z = true)
          by (apply Z.eqb_eq; lia).
        rewrite E. clear E.
        exists st1, [ImageRead (path_join folder name) "RGB"].
        split; [| split; [reflexivity | repeat constructor]].
        unfold ret. cbn [length Nat.min take drop]. rewrite Nat.min_0_r.
        cbn [take drop app]. rewrite app_nil_r.
        f_equal. f_equal. f_equal. lia.
      * assert (E : (Z.of_nat (length done) + 1
                     =? Z.of_nat (length done + S (S (length rest''))))%Z = false)
          by (apply Z.eqb_neq; lia).
        rewrite E. clear E.
        destruct (IH (done ++ [c]) (z' :: rest'') st1) as (st' & evs & Hrun & Htrace & Hq);
          [discriminate |].
        rewrite length_app in Hrun. cbn [length] in Hrun.
        replace (Z.of_nat (length done + 1)) with (Z.of_nat (length done) + 1)%Z in Hrun by lia.
        replace (length done + 1 + S (length rest'')) with (length done + S (S (length rest'')))
          in Hrun by lia.
        exists st', (ImageRead (path_join folder name) "RGB" :: evs).
        split; [| split].
        -- rewrite Hrun. cbn [world length Nat.min take drop].
           rewrite <- app_assoc. cbn [app]. subst st1. cbn [world].
           f_equal. f_equal. f_equal. f_equal. lia.
        -- rewrite Htrace. subst st1. cbn [trace]. now rewrite <- app_assoc.
        -- constructor; [reflexivity | exact Hq].
Qed.

(** The loop on an array without room, [nb_total = 0]: the first image
    that is cropped does not fit. *)
Lemma imagenet_loop_no_room names :
  forall (st : state World),
    let n := Z.to_nat width_crop in
    exists st' evs,
      imagenet_loop env folder width_crop nb_training 0 names 0 (Stack [] n n) st
      = (match crops_of env folder width_crop nb_training names 0 (world st) with
         | [] => Ok (0%Z, Stack [] n n)
         | _ :: _ => Raise (IndexError "index is out of bounds for axis 0")
         end, st')
      /\ trace st' = trace st ++ evs /\ quiet evs.
Proof.
  induction names as [| name names IH]; intros st n.
  - exists st, []. split; [reflexivity | split; [now rewrite app_nil_r | constructor]].
  - cbn [imagenet_loop crops_of]. unfold bind at 1. rewrite try_crop_run. cbn [world].
    destruct (attempt env (world st) (path_join folder name) width_crop
                (0 <? nb_training)%Z) as [[e | c] w1] eqn:Hatt; cbn [fst snd].
    + set (st1 := MkState w1 (((trace st ++ [ImageRead (path_join folder name) "RGB"])
                                ++ [Printed (tls_message e)])
                               ++ [Printed (quoted (path_join folder name) ++ " is skipped."
                                            ++ lf)%string])).
      destruct (IH st1) as (st' & evs & Hrun & Htrace & Hq).
      exists st', ([ImageRead (path_join folder name) "RGB"; Printed (tls_message e);
                    Printed (quoted (path_join folder name) ++ " is skipped." ++ lf)%string]
                   ++ evs).
      split; [| split].
      * unfold bind, print, emit. cbn [world trace]. exact Hrun.
      * rewrite Htrace. subst st1. cbn [trace]. now rewrite <- !app_assoc.
      * apply Forall_app. split; [repeat constructor | exact Hq].
    + exists (MkState w1 (trace st ++ [ImageRead (path_join folder name) "RGB"])),
             [ImageRead (path_join folder name) "RGB"].
      split; [reflexivity | split; [reflexivity | repeat constructor]].
Qed.

End Loop.



Lemma create_imagenet_builds folder width_crop nb_training nb_validation
    path_to_training path_to_validation path_to_tar (st : state World) :
  isfile env (world st) path_to_training && isfile env (world st) path_to_validation = false ->
  create_imagenet env folder width_crop nb_training nb_validation
                  path_to_training path_to_validation path_to_tar st
  = build_imagenet env folder width_crop nb_training nb_validation
                   path_to_training path_to_validation path_to_tar st.
Proof.
  intros H. unfold create_imagenet, bind, os_path_isfile.
  destruct (isfile env (world st) path_to_training); cbn [andb] in H.
  - cbv beta iota. now rewrite H.
  - reflexivity.
Qed.



End ImagenetFacts.

Lemma toy_crop_shape listing shapes (width_crop : Z) :
  forall a b w c w',
    crop_option_2d (toy_env listing shapes) a width_crop b w = (inr c, w') ->
    shape2 c = (Z.to_nat width_crop, Z.to_nat width_crop).
Proof.
  intros a b w c w'. cbn [toy_env crop_option_2d].
  destruct (Nat.leb (Z.to_nat width_crop) (rows a) && Nat.leb (Z.to_nat width_crop) (cols a));
    intros H; inversion H. reflexivity.
Qed.





(** The same folder cannot fill four training crops and one
    validation crop: the run raises [RuntimeError] and saves nothing. *)
Example create_imagenet_too_few :
  (exists msg,
     fst (create_imagenet five_files "data" 16 4 1 "tr.npy" "va.npy" "" fresh)
     = Raise (RuntimeError msg))
  /\ List.filter is_write
       (trace (snd (create_imagenet five_files "data" 16 4 1 "tr.npy" "va.npy" "" fresh)))
     = [].
Proof. split; [eexists |]; vm_compute; reflexivity. Qed.

End DatasetsFacts.

(* ===================================================================== *)
(** ** Properties of the bit buffer                                       *)
(* ===================================================================== *)

Module BitstreamFacts.
Import Bitstream.

Local Open Scope list_scope.

Lemma to_N_byte_of_N (n : N) : Byte.to_N (byte_of_N n) = (n mod 256)%N.
Proof.
  unfold byte_of_N.
  pose proof (Byte.to_of_N_option_map (n mod 256)) as H.
  destruct (Byte.of_N (n mod 256)) as [b |] eqn:Hb.
  - now apply Byte.to_of_N.
  - cbn in H. destruct (N.leb_spec (n mod 256) 255) as [_ | Hgt]; [discriminate |].
    pose proof (N.mod_upper_bound n 256). lia.
Qed.

Lemma length_bits_msb n v : length (bits_msb n v) = n.
Proof. unfold bits_msb. now rewrite length_fmap, length_seq. Qed.

Lemma lookup_bits_msb n v k :
  k < n -> bits_msb n v !! k = Some (N.testbit v (N.of_nat (n - 1 - k))).
Proof.
  intros Hk. unfold bits_msb. rewrite list_lookup_fmap, lookup_seq_lt by assumption.
  reflexivity.
Qed.

(** Appending a bit below the bits of [v]. *)
Lemma bits_msb_snoc n v b :
  bits_msb (S n) (2 * v + N.b2n b) = bits_msb n v ++ [b].
Proof.
  unfold bits_msb. rewrite seq_S, fmap_app. cbn [fmap list_fmap Nat.add].
  f_equal.
  - apply list_fmap_ext. intros i k Hk.
    apply lookup_seq in Hk as [-> Hlt]. cbn [Nat.add].
    replace (S n - 1 - i) with (S (n - 1 - i)) by lia.
    rewrite Nat2N.inj_succ. apply N.testbit_succ_r.
  - replace (S n - 1 - n) with 0 by lia. cbn [N.of_nat].
    now rewrite N.testbit_0_r.
Qed.

Lemma bits_msb_mod n v : n <= 8 -> bits_msb n (v mod 256) = bits_msb n v.
Proof.
  intros Hn. unfold bits_msb. apply list_fmap_ext. intros i k Hk.
  apply lookup_seq in Hk as [-> Hlt]. cbn [Nat.add].
  change 256%N with (2 ^ 8)%N. apply N.mod_pow2_bits_low. lia.
Qed.

Lemma flat_app buf1 buf2 : flat (buf1 ++ buf2) = flat buf1 ++ flat buf2.
Proof. unfold flat. apply flat_map_app. Qed.

Lemma length_flat buf : length (flat buf) = 8 * length buf.
Proof.
  induction buf as [| b buf IH]; [reflexivity |].
  unfold flat in *. cbn [flat_map length]. rewrite length_app, IH.
  unfold byte_bits. rewrite length_bits_msb. lia.
Qed.

(** Writing a bit appends it to the bits held. *)
Lemma writeBit_contents b w :
  count w < 8 ->
  contents (writeBit b w) = contents w ++ [b]
  /\ count (writeBit b w) = (count w + 1) mod 8.
Proof.
  intros Hc. unfold writeBit, contents.
  destruct (Nat.eqb_spec (count w) 7) as [H7 | H7]; cbn [stored pending count].
  - rewrite H7. split; [| reflexivity].
    rewrite flat_app. unfold flat at 2. cbn [flat_map]. rewrite !app_nil_r.
    unfold byte_bits. rewrite to_N_byte_of_N, bits_msb_mod by lia.
    rewrite bits_msb_snoc. now rewrite <- app_assoc.
  - split.
    + rewrite bits_msb_snoc. now rewrite <- app_assoc.
    + rewrite Nat.mod_small by lia. lia.
Qed.

Lemma count_lt_8 b w : count w < 8 -> count (writeBit b w) < 8.
Proof.
  intros Hc. destruct (writeBit_contents b w Hc) as [_ ->].
  apply Nat.mod_upper_bound. lia.
Qed.

Lemma writeBits_contents bs :
  forall w,
    count w < 8 ->
    contents (writeBits bs w) = contents w ++ bs
    /\ count (writeBits bs w) = (count w + length bs) mod 8.
Proof.
  induction bs as [| b bs IH]; intros w Hc.
  - cbn [writeBits fold_left length]. rewrite app_nil_r, Nat.add_0_r.
    split; [reflexivity | now rewrite Nat.mod_small].
  - cbn [writeBits fold_left length].
    destruct (writeBit_contents b w Hc) as [Hcont Hcount].
    destruct (IH (writeBit b w) (count_lt_8 b w Hc)) as [Hcont' Hcount'].
    unfold writeBits in Hcont', Hcount'. rewrite Hcont', Hcont, Hcount', Hcount.
    split; [now rewrite <- app_assoc |].
    rewrite Nat.Div0.add_mod_idemp_l. f_equal. lia.
Qed.

(** The flushed buffer holds the bits written, then fewer than eight
    padding bits. *)
Lemma flat_flush pad w :
  count w < 8 ->
  flat (flush pad w) = contents w ++ repeat pad ((8 - count w) mod 8).
Proof.
  intros Hc. unfold flush.
  destruct (writeBits_contents (repeat pad ((8 - count w) mod 8)) w Hc) as [Hcont Hcount].
  rewrite repeat_length in Hcount.
  assert (H0 : count (writeBits (repeat pad ((8 - count w) mod 8)) w) = 0).
  { rewrite Hcount. rewrite Nat.Div0.add_mod_idemp_r.
    replace (count w + (8 - count w)) with 8 by lia. reflexivity. }
  rewrite <- Hcont. unfold contents. rewrite H0. cbn [bits_msb seq fmap list_fmap].
  now rewrite app_nil_r.
Qed.

(** The reader looks a bit up in the bits its buffer holds. *)
Lemma lookup_flat buf :
  forall p,
    flat buf !! p
    = match buf !! (p / 8) with
      | Some b => Some (N.testbit (Byte.to_N b) (N.of_nat (7 - p mod 8)))
      | None => None
      end.
Proof.
  induction buf as [| b buf IH]; intros p.
  - reflexivity.
  - change (flat (b :: buf)) with (byte_bits b ++ flat buf).
    destruct (Nat.lt_ge_cases p 8) as [Hlt | Hge].
    + rewrite lookup_app_l by (unfold byte_bits; rewrite length_bits_msb; lia).
      rewrite Nat.div_small, Nat.mod_small by lia. cbn [lookup list_lookup].
      unfold byte_bits. rewrite lookup_bits_msb by lia. reflexivity.
    + destruct (Nat.le_exists_sub 8 p Hge) as (q & -> & _).
      rewrite lookup_app_r by (unfold byte_bits; rewrite length_bits_msb; lia).
      unfold byte_bits at 1. rewrite length_bits_msb.
      replace (q + 8 - 8) with q by lia. rewrite IH.
      replace (q + 8) with (q + 1 * 8) by lia.
      rewrite Nat.div_add, Nat.Div0.mod_add by lia.
      replace (q / 8 + 1) with (S (q / 8)) by lia.
      reflexivity.
Qed.

Lemma readBit_flat r :
  readBit r = match flat (buffer r) !! position r with
              | Some b => inr (b, Reader (buffer r) (S (position r)))
              | None => inl ExhaustedInput
              end.
Proof.
  unfold readBit. rewrite lookup_flat.
  destruct (buffer r !! (position r / 8)); reflexivity.
Qed.

Lemma readBits_flat bs :
  forall buf p tail,
    drop p (flat buf) = bs ++ tail ->
    readBits (length bs) (Reader buf p) = inr (bs, Reader buf (p + length bs)).
Proof.
  induction bs as [| b bs IH]; intros buf p tail Hdrop.
  - cbn [readBits length]. now rewrite Nat.add_0_r.
  - cbn [readBits length]. rewrite readBit_flat. cbn [buffer position].
    assert (Hb : flat buf !! p = Some b).
    { rewrite <- (Nat.add_0_r p), <- lookup_drop, Hdrop. reflexivity. }
    rewrite Hb.
    rewrite (IH buf (S p) tail).
    + f_equal. f_equal. f_equal. lia.
    + replace (S p) with (p + 1) by lia. rewrite <- drop_drop, Hdrop. reflexivity.
Qed.

(** C4.  For every padding bit and every sequence of bits: after the
    bits are written and the buffer is flushed, as many calls of
    [readBit] return exactly these bits, in the order in which they
    were written, and then fewer than eight bits, the padding, remain.
    On every reader, [readBit] fails with [ExhaustedInput] if and only
    if no bits remain. *)
Theorem readBit_order_and_exhaustion :
  (forall (pad : bool) (bs : list bool),
     exists r,
       readBits (length bs) (open (flush pad (writeBits bs empty))) = inr (bs, r)
       /\ position r = length bs
       /\ remaining r < 8)
  /\
  (forall r : reader, readBit r = inl ExhaustedInput <-> remaining r = 0).
Proof.
  split.
  - intros pad bs.
    set (w := writeBits bs empty).
    assert (Hc0 : count empty < 8) by (cbn; lia).
    destruct (writeBits_contents bs empty Hc0) as [Hcont Hcount].
    fold w in Hcont, Hcount.
    change (contents empty) with (@nil bool) in Hcont. rewrite app_nil_l in Hcont.
    assert (Hc : count w < 8) by (rewrite Hcount; apply Nat.mod_upper_bound; lia).
    pose proof (flat_flush pad w Hc) as Hflat. rewrite Hcont in Hflat.
    exists (Reader (flush pad w) (0 + length bs)).
    split; [| split].
    + unfold open. apply readBits_flat with (tail := repeat pad ((8 - count w) mod 8)).
      now rewrite drop_0.
    + reflexivity.
    + unfold remaining. cbn [buffer position].
      rewrite <- length_flat, Hflat, length_app, repeat_length.
      pose proof (Nat.mod_upper_bound (8 - count w) 8). lia.
  - intros r. unfold readBit, remaining.
    pose proof (Nat.div_mod_eq (position r) 8) as Hdiv.
    pose proof (Nat.mod_upper_bound (position r) 8) as Hmod.
    destruct (buffer r !! (position r / 8)) as [b |] eqn:Hb.
    + apply lookup_lt_Some in Hb. split; [discriminate | lia].
    + apply lookup_ge_None in Hb. split; [lia | reflexivity].
Qed.

(** Eleven bits go into two bytes, most significant bit first, and
    come back in order; the five padding bits follow. *)
Example bitstream_eleven_bits :
  flush false (writeBits [true; false; true; true; false; false; false; true;
                          true; true; false] empty)
  = [xb1; xc0]%byte
  /\ readBits 11 (open [xb1; xc0]%byte)
     = inr ([true; false; true; true; false; false; false; true; true; true; false],
            Reader [xb1; xc0]%byte 11)
  /\ readBits 17 (open [xb1; xc0]%byte) = inl ExhaustedInput.
Proof. repeat split; vm_compute; reflexivity. Qed.

End BitstreamFacts.

(* ===================================================================== *)
(** ** Properties of the header handling                                  *)
(* ===================================================================== *)

Module CompressionFacts.
Import Bitstream Compression.

Local Open Scope list_scope.
Local Open Scope N_scope.

Lemma byte_of_N_low a b : byte_of_N (a * 256 + Byte.to_N b) = b.
Proof.
  unfold byte_of_N. pose proof (Byte.to_N_bounded b) as Hb.
  rewrite N.add_comm, N.Div0.mod_add, N.mod_small by lia.
  now rewrite Byte.of_to_N.
Qed.

Lemma be_value_snoc bs b : be_value (bs ++ [b]) = be_value bs * 256 + Byte.to_N b.
Proof. unfold be_value. now rewrite fold_left_app. Qed.

Lemma length_be_bytes k : forall v, length (be_bytes k v) = k.
Proof.
  induction k as [| k IH]; intros v; [reflexivity |].
  cbn [be_bytes]. rewrite length_app, IH. cbn [length]. lia.
Qed.

(** Bytes are the big-endian spelling of the number they spell. *)
Lemma be_bytes_value bs : be_bytes (length bs) (be_value bs) = bs.
Proof.
  induction bs as [| b bs IH] using rev_ind; [reflexivity |].
  rewrite length_app, be_value_snoc. cbn [length].
  replace (length bs + 1)%nat with (S (length bs)) by lia.
  cbn [be_bytes]. pose proof (Byte.to_N_bounded b) as Hb.
  rewrite N.div_add_l, N.div_small, N.add_0_r by lia.
  now rewrite IH, byte_of_N_low.
Qed.

Lemma be_value_bound bs : be_value bs < 256 ^ N.of_nat (length bs).
Proof.
  induction bs as [| b bs IH] using rev_ind; [cbn; lia |].
  rewrite length_app, be_value_snoc. cbn [length].
  replace (N.of_nat (length bs + 1)) with (N.succ (N.of_nat (length bs))) by lia.
  rewrite N.pow_succ_r'. pose proof (Byte.to_N_bounded b) as Hb. lia.
Qed.

(** The number that [k] big-endian bytes of [v] spell is [v], cut to
    [k] bytes. *)
Lemma be_value_bytes k : forall v, be_value (be_bytes k v) = v mod 256 ^ N.of_nat k.
Proof.
  induction k as [| k IH]; intros v.
  - cbn. now rewrite N.mod_1_r.
  - cbn [be_bytes]. rewrite be_value_snoc, IH, BitstreamFacts.to_N_byte_of_N.
    rewrite Nat2N.inj_succ, N.pow_succ_r'.
    rewrite N.Div0.mod_mul_r. lia.
Qed.

Lemma width_pow : 256 ^ N.of_nat field_bytes = 2 ^ 32.
Proof. reflexivity. Qed.

(** A field that is read is the field that was written. *)
Lemma get_put_field v rest :
  v < 2 ^ 32 -> get_field (put_field v ++ rest) = Some (v, rest).
Proof.
  intros Hv. unfold get_field, put_field.
  rewrite length_app, length_be_bytes.
  destruct (Nat.leb_spec field_bytes (field_bytes + length rest)) as [_ | Hlt]; [| lia].
  rewrite take_app_length' by (now rewrite length_be_bytes).
  rewrite drop_app_length' by (now rewrite length_be_bytes).
  rewrite be_value_bytes, width_pow, N.mod_small by assumption. reflexivity.
Qed.

(** A field that is read was written as it is read. *)
Lemma put_get_field bytes v rest :
  get_field bytes = Some (v, rest) -> bytes = put_field v ++ rest /\ v < 2 ^ 32.
Proof.
  unfold get_field, put_field.
  destruct (Nat.leb_spec field_bytes (length bytes)) as [Hlen | _]; [| discriminate].
  intros H. inversion H; subst v rest. clear H.
  assert (Htake : length (take field_bytes bytes) = field_bytes)
    by (apply length_take_le; assumption).
  split.
  - rewrite <- Htake at 1. rewrite be_bytes_value. now rewrite take_drop.
  - pose proof (be_value_bound (take field_bytes bytes)) as Hb.
    rewrite Htake, width_pow in Hb. exact Hb.
Qed.

Lemma get_put_fields vs rest :
  forallb (fun d => N.ltb d (2 ^ 32)) vs = true ->
  get_fields (length vs) (flat_map put_field vs ++ rest) = Some (vs, rest).
Proof.
  induction vs as [| v vs IH]; intros Hfit; [reflexivity |].
  cbn [forallb] in Hfit. apply andb_true_iff in Hfit as [Hv Hvs].
  apply N.ltb_lt in Hv.
  cbn [length flat_map get_fields]. rewrite <- app_assoc.
  rewrite get_put_field by assumption. now rewrite IH.
Qed.

Lemma put_get_fields n :
  forall bytes vs rest,
    get_fields n bytes = Some (vs, rest) ->
    bytes = flat_map put_field vs ++ rest
    /\ length vs = n
    /\ forallb (fun d => N.ltb d (2 ^ 32)) vs = true.
Proof.
  induction n as [| n IH]; intros bytes vs rest H.
  - cbn in H. inversion H; subst. repeat split.
  - cbn [get_fields] in H.
    destruct (get_field bytes) as [[v r1] |] eqn:Hfield; [| discriminate].
    destruct (get_fields n r1) as [[vs' r2] |] eqn:Hrest; [| discriminate].
    inversion H; subst vs rest. clear H.
    apply put_get_field in Hfield as [-> Hv].
    apply IH in Hrest as (-> & Hlen & Hfit).
    cbn [flat_map length forallb]. rewrite <- app_assoc.
    repeat split; [now rewrite Hlen |].
    apply andb_true_iff. split; [now apply N.ltb_lt | assumption].
Qed.

Lemma supported_rank_small n : supported_rank n = true -> n = 2 \/ n = 3.
Proof.
  unfold supported_rank. intros [H | H]%orb_true_iff; apply N.eqb_eq in H; auto.
Qed.

(** A header that is parsed is the header whose serialization starts
    the buffer, and the payload is what follows it. *)
Lemma parse_header_sound bytes h payload :
  parse_header bytes = Some (h, payload) ->
  bytes = serialize_header h ++ payload /\ fits h = true.
Proof.
  unfold parse_header.
  destruct (get_field bytes) as [[rank r1] |] eqn:Hrank; [| discriminate].
  destruct (supported_rank rank) eqn:Hsup; [| discriminate].
  destruct (get_fields (N.to_nat rank) r1) as [[dims r2] |] eqn:Hdims; [| discriminate].
  destruct (get_field r2) as [[b r3] |] eqn:Hb; [| discriminate].
  destruct (get_field r3) as [[t r4] |] eqn:Ht; [| discriminate].
  intros H. inversion H; subst h payload. clear H.
  apply put_get_field in Hrank as [-> Hrank].
  apply put_get_fields in Hdims as (-> & Hlen & Hfit).
  apply put_get_field in Hb as [-> Hbfit].
  apply put_get_field in Ht as [-> Htfit].
  assert (Hrk : N.of_nat (length dims) = rank) by lia.
  unfold serialize_header, fits. cbn [extents bound tag]. rewrite Hrk.
  split.
  - now rewrite <- !app_assoc.
  - rewrite Hfit. repeat (apply andb_true_iff; split); try reflexivity;
      now apply N.ltb_lt.
Qed.

(** Parsing the serialization of a header whose fields fit gives the
    header back when its number of dimensions is supported, and
    nothing otherwise. *)
Lemma parse_serialize_header h payload :
  fits h = true ->
  parse_header (serialize_header h ++ payload)
  = if supported_rank (N.of_nat (length (extents h))) then Some (h, payload) else None.
Proof.
  unfold fits. intros Hfit.
  apply andb_true_iff in Hfit as [Hfit Ht].
  apply andb_true_iff in Hfit as [Hfit Hb].
  apply andb_true_iff in Hfit as [Hrank Hdims].
  apply N.ltb_lt in Hrank, Hb, Ht.
  unfold parse_header, serialize_header. rewrite <- !app_assoc.
  rewrite get_put_field by assumption.
  destruct (supported_rank (N.of_nat (length (extents h)))); [| reflexivity].
  rewrite Nat2N.id, get_put_fields by assumption.
  rewrite !get_put_field by assumption.
  now destruct h.
Qed.

Section FacadeFacts.

Variables (config grid : Type).
Variable max_bound : N.
Variable consistent : config -> header -> bool.
Variable decode_payload : config -> header -> list byte -> error + grid.

(** C7.  Whatever the payload decoder and the payload are, [decode]
    either fails with [MalformedHeader] or has found at the start of
    the buffer the serialization of a header that passes validation
    (all dimensions positive, the bound within the supported range,
    consistent with the configuration) and returns what the payload
    decoder returns on the bytes after it: the payload is touched only
    after validation.  In particular [decode] fails with
    [MalformedHeader] on a buffer that does not start with a header
    (unreadable), and on a buffer that starts with a header that does
    not pass validation (inconsistent). *)
Theorem decode_validates_header_first (bytes : list byte) (cfg : config) :
  (decode config grid max_bound consistent decode_payload bytes cfg = inl MalformedHeader
   \/ exists h payload,
        bytes = serialize_header h ++ payload
        /\ fits h = true
        /\ valid config max_bound consistent cfg h = true
        /\ decode config grid max_bound consistent decode_payload bytes cfg
           = decode_payload cfg h payload)
  /\
  ((forall h payload, fits h = true -> bytes <> serialize_header h ++ payload) ->
   decode config grid max_bound consistent decode_payload bytes cfg = inl MalformedHeader)
  /\
  (forall h payload,
     fits h = true ->
     bytes = serialize_header h ++ payload ->
     valid config max_bound consistent cfg h = false ->
     decode config grid max_bound consistent decode_payload bytes cfg = inl MalformedHeader).
Proof.
  split; [| split].
  - unfold decode.
    destruct (parse_header bytes) as [[h payload] |] eqn:Hparse; [| now left].
    destruct (valid config max_bound consistent cfg h) eqn:Hvalid; [| now left].
    right. exists h, payload.
    destruct (parse_header_sound _ _ _ Hparse) as [Hbytes Hfits].
    repeat split; assumption.
  - intros Hunreadable. unfold decode.
    destruct (parse_header bytes) as [[h payload] |] eqn:Hparse; [| reflexivity].
    destruct (parse_header_sound _ _ _ Hparse) as [Hbytes Hfits].
    exfalso. exact (Hunreadable h payload Hfits Hbytes).
  - intros h payload Hfits -> Hinvalid. unfold decode.
    rewrite parse_serialize_header by assumption.
    destruct (supported_rank (N.of_nat (length (extents h)))); [| reflexivity].
    now rewrite Hinvalid.
Qed.

End FacadeFacts.

(** A buffer of three bytes is no header, and the header of a 4x0 grid
    does not pass validation, whatever follows it: both are refused. *)
Lemma decode_validates_header_first_witness :
  decode N (list byte) 255 toy_consistent toy_payload [x00; x00; x02]%byte 8
  = inl MalformedHeader
  /\ decode N (list byte) 255 toy_consistent toy_payload
       (serialize_header (Header [4; 0] 8 1) ++ [xff; x10]%byte) 8
     = inl MalformedHeader.
Proof.
  split.
  - destruct (decode_validates_header_first N (list byte) 255 toy_consistent toy_payload
                [x00; x00; x02]%byte 8) as (_ & Hunreadable & _).
    apply Hunreadable.
    intros h payload _ Heq. apply (f_equal length) in Heq.
    unfold serialize_header in Heq. rewrite !length_app in Heq.
    unfold put_field in Heq at 1. rewrite length_be_bytes in Heq.
    cbn in Heq. lia.
  - destruct (decode_validates_header_first N (list byte) 255 toy_consistent toy_payload
                (serialize_header (Header [4; 0] 8 1) ++ [xff; x10]%byte) 8)
      as (_ & _ & Hinconsistent).
    apply (Hinconsistent (Header [4; 0] 8 1) [xff; x10]%byte); reflexivity.
Defined.

(** The header of a 4x4 grid with bound 8 passes, and the payload goes
    to the payload decoder. *)
Example decode_accepts_valid_header :
  serialize_header (Header [4; 4] 8 1)
  = [x00; x00; x00; x02; x00; x00; x00; x04; x00; x00; x00; x04;
     x00; x00; x00; x08; x00; x00; x00; x01]%byte
  /\ decode N (list byte) 255 toy_consistent toy_payload
       (serialize_header (Header [4; 4] 8 1) ++ [xff; x10]%byte) 8
     = inr [xff; x10]%byte.
Proof. split; vm_compute; reflexivity. Qed.

End CompressionFacts.

(* ===================================================================== *)
(** ** More properties of the dataset builders                            *)
(* ===================================================================== *)

Module DatasetsMore.
Import Py Datasets DatasetsSpec DatasetsTraces DatasetsFacts.

Local Open Scope py_scope.
Local Open Scope list_scope.

Local Arguments String.append : simpl never.
Local Arguments quoted : simpl never.

Lemma image_reads_app evs1 evs2 :
  image_reads (evs1 ++ evs2) = image_reads evs1 ++ image_reads evs2.
Proof. unfold image_reads. apply flat_map_app. Qed.

Lemma printed_app evs1 evs2 : printed (evs1 ++ evs2) = printed evs1 ++ printed evs2.
Proof. unfold printed. apply flat_map_app. Qed.

Lemma quiet_app evs1 evs2 : quiet evs1 -> quiet evs2 -> quiet (evs1 ++ evs2).
Proof. intros H1 H2. apply Forall_app. now split. Qed.

Section BsdsMore.

Context {World : Type} (env : Env World).

Lemma fetch_events_quiet source_url folder tar (w : World) :
  quiet (fetch_events env source_url folder tar w).
Proof.
  unfold fetch_events. destruct (truthy tar); [| constructor].
  destruct (fst (download_untar_archive env source_url folder tar w));
    repeat constructor.
Qed.

(** The building branch of [create_bsds], with the archive handled and
    the listing taken. *)
Lemma build_bsds_unfolded source_url folder path_to_bsds path_to_list_rotation path_to_tar
    (st : state World) :
  let w := world_after_fetch env source_url folder path_to_tar (world st) in
  let names := bsds_names env w folder in
  let st1 := MkState w (trace st ++ fetch_events env source_url folder path_to_tar (world st)) in
  build_bsds env source_url folder path_to_bsds path_to_list_rotation path_to_tar st
  = if negb (Nat.eqb (length names) 100) then
      (Raise (RuntimeError "The number of BSDS RGB images to be read is not 100."), st1)
    else
      match bsds_loop env (test_folder folder) names (seq 0 100)
                      (zeros_stack 100 320 480, []) st1 with
      | (Ok acc, st2) =>
          (Ok tt,
           MkState (pickle_dump env path_to_list_rotation (snd acc)
                      (numpy_save env path_to_bsds (fst acc) (world st2)))
                   (trace st2 ++ [NpySaved path_to_bsds (fst acc);
                                  PickleDumped path_to_list_rotation (snd acc) 2]))
      | (Raise e, st2) => (Raise e, st2)
      end.
Proof.
  intros w names st1.
  assert (Hfetch :
    (if truthy path_to_tar then
       is_downloaded <- tls_download_untar_archive env source_url folder path_to_tar ;;
       if (is_downloaded : bool) then
         print ("Successfully downloaded " ++ quoted path_to_tar ++ ".")%string
       else
         (print (quoted path_to_tar ++ " already exists.")%string ;;;
          print "Delete it manually to re-download it.")
     else ret tt) st = (Ok tt, st1)).
  { subst st1 w. unfold world_after_fetch, fetch_events. destruct (truthy path_to_tar).
    - unfold bind, tls_download_untar_archive.
      destruct (download_untar_archive env source_url folder path_to_tar (world st))
        as [[|] w1]; cbn [fst snd]; cbv [print emit world trace];
        now rewrite <- !app_assoc.
    - rewrite app_nil_r. now destruct st. }
  unfold build_bsds. unfold bind at 1. rewrite Hfetch.
  unfold bind at 1, os_listdir. subst st1. cbn [world trace].
  fold (test_folder folder). fold (bsds_names env w folder). fold names.
  destruct (negb (Nat.eqb (length names) 100)); [reflexivity |].
  unfold bind at 1.
  change (height_bsds - 1)%nat with 320%nat. change (width_bsds - 1)%nat with 480%nat.
  destruct (bsds_loop env (test_folder folder) names (seq 0 100)
              (zeros_stack 100 320 480, [])
              (MkState w (trace st ++ fetch_events env source_url folder path_to_tar (world st))))
    as [[acc | e] st2]; [| reflexivity].
  unfold bind, numpy_save_m, pickle_dump_m. cbn [world trace].
  now rewrite <- app_assoc.
Qed.

(** One turn of the loop: it reads the image, and it raises the error
    of the image or stores a plane. *)
Lemma bsds_body_turn folder names i name acc (st : state World) :
  names !! i = Some name ->
  i < length (planes (fst acc)) ->
  plane_rows (fst acc) = 320 -> plane_cols (fst acc) = 480 ->
  match turn_error env (world st) folder name with
  | Some e =>
      bsds_body env folder names i acc st
      = (Raise e, MkState (world st) (trace st ++ [read_event folder name]))
  | None =>
      exists acc',
        bsds_body env folder names i acc st
        = (Ok acc', MkState (world st) (trace st ++ [read_event folder name]))
        /\ length (planes (fst acc')) = length (planes (fst acc))
        /\ plane_rows (fst acc') = 320 /\ plane_cols (fst acc') = 480
  end.
Proof.
  intros Hname Hlt Hr Hc. destruct acc as [ref rot]. cbn [fst] in Hlt, Hr, Hc.
  assert (Hbody : bsds_body env folder names i (ref, rot) st
    = match luminance_of env (world st) (path_join folder name) with
      | inl e => (Raise (exn_of_tls e),
                  MkState (world st) (trace st ++ [read_event folder name]))
      | inr l =>
          (if is_upright l then
             bind (lift (set_plane i (slice2 1 height_bsds 1 width_bsds l) ref))
                  (fun reference' => ret (reference', rot))
           else if is_sideways l then
             bind (lift (set_plane i (rot90 (slice2 1 width_bsds 1 height_bsds l)) ref))
                  (fun reference' => ret (reference', rot ++ [i]))
           else
             raise (ValueError (quoted (path_join folder name)
                                ++ " is neither 321x481x3 nor 481x321x3.")%string))
            (MkState (world st) (trace st ++ [read_event folder name]))
      end).
  { unfold bsds_body, index, read_event. rewrite Hname.
    unfold bind at 1. unfold ret at 1. cbv beta iota.
    unfold bind at 1. rewrite read_luminance_run.
    destruct (luminance_of env (world st) (path_join folder name)); reflexivity. }
  rewrite Hbody. clear Hbody. unfold turn_error.
  destruct (luminance_of env (world st) (path_join folder name)) as [e | l];
    [reflexivity |].
  destruct (is_upright l) eqn:Hu.
  - pose proof (stored_plane_shape l) as Hs. rewrite Hu in Hs.
    destruct (Hs eq_refl) as [Hs1 Hs2]. unfold stored_plane in Hs1, Hs2.
    rewrite Hu in Hs1, Hs2. cbn [orb].
    unfold bind, lift, ret. rewrite set_plane_exact by congruence.
    eexists. split; [reflexivity |]. cbn [fst planes plane_rows plane_cols].
    rewrite length_insert. auto.
  - cbn [orb]. destruct (is_sideways l) eqn:Hsw; [| reflexivity].
    pose proof (stored_plane_shape l) as Hs. rewrite Hu, Hsw in Hs.
    destruct (Hs eq_refl) as [Hs1 Hs2]. unfold stored_plane in Hs1, Hs2.
    rewrite Hu in Hs1, Hs2.
    unfold bind, lift, ret. rewrite set_plane_exact by congruence.
    eexists. split; [reflexivity |]. cbn [fst planes plane_rows plane_cols].
    rewrite length_insert. auto.
Qed.

(** The turns of [indices], whose images are [ns]: when every image is
    usable the loop reads them all, in order. *)
Lemma bsds_loop_all_usable folder names :
  forall indices ns acc (st : state World),
    Forall2 (fun i name => names !! i = Some name) indices ns ->
    (forall i, i ∈ indices -> i < length (planes (fst acc))) ->
    plane_rows (fst acc) = 320 -> plane_cols (fst acc) = 480 ->
    (forall name, name ∈ ns -> turn_error env (world st) folder name = None) ->
    exists acc',
      bsds_loop env folder names indices acc st
      = (Ok acc', MkState (world st) (trace st ++ map (read_event folder) ns)).
Proof.
  intros indices ns acc st Hall. revert acc st.
  induction Hall as [| i name indices ns Hname Hall IH]; intros acc st Hlt Hr Hc Hgood.
  - exists acc. cbn [bsds_loop map]. rewrite app_nil_r. now destruct st.
  - cbn [bsds_loop map].
    assert (Hi : i < length (planes (fst acc))) by (apply Hlt; now left).
    pose proof (bsds_body_turn folder names i name acc st Hname Hi Hr Hc) as Hturn.
    rewrite (Hgood name) in Hturn by now left.
    destruct Hturn as (acc1 & Hbody & Hlen & Hr1 & Hc1).
    unfold bind at 1. rewrite Hbody.
    destruct (IH acc1 (MkState (world st) (trace st ++ [read_event folder name])))
      as (acc' & Hloop); auto.
    { intros j Hj. rewrite Hlen. apply Hlt. now right. }
    { intros n Hn. cbn [world]. apply Hgood. now right. }
    exists acc'. rewrite Hloop. cbn [world trace]. now rewrite <- app_assoc.
Qed.

(** When the image at position [k] of [ns] is the first that is not
    usable, the loop raises its error after reading the images up to
    it, and reads no image after it. *)
Lemma bsds_loop_first_unusable folder names :
  forall indices ns k name e acc (st : state World),
    Forall2 (fun i name => names !! i = Some name) indices ns ->
    (forall i, i ∈ indices -> i < length (planes (fst acc))) ->
    plane_rows (fst acc) = 320 -> plane_cols (fst acc) = 480 ->
    ns !! k = Some name ->
    turn_error env (world st) folder name = Some e ->
    (forall j n, j < k -> ns !! j = Some n -> turn_error env (world st) folder n = None) ->
    bsds_loop env folder names indices acc st
    = (Raise e, MkState (world st) (trace st ++ map (read_event folder) (take (S k) ns))).
Proof.
  intros indices ns k name e acc st Hall. revert k acc st.
  induction Hall as [| i n0 indices ns Hname Hall IH];
    intros k acc st Hlt Hr Hc Hk He Hbefore.
  - discriminate.
  - cbn [bsds_loop].
    assert (Hi : i < length (planes (fst acc))) by (apply Hlt; now left).
    pose proof (bsds_body_turn folder names i n0 acc st Hname Hi Hr Hc) as Hturn.
    destruct k as [| k].
    + cbn in Hk. inversion Hk; subst n0. rewrite He in Hturn.
      unfold bind at 1. rewrite Hturn. reflexivity.
    + assert (Hgood0 : turn_error env (world st) folder n0 = None)
        by (apply (Hbefore 0 n0); [apply Nat.lt_0_succ | reflexivity]).
      rewrite Hgood0 in Hturn.
      destruct Hturn as (acc1 & Hbody & Hlen & Hr1 & Hc1).
      unfold bind at 1. rewrite Hbody.
      rewrite (IH k acc1 (MkState (world st) (trace st ++ [read_event folder n0]))); auto.
      * cbn [world trace take map]. now rewrite <- app_assoc.
      * intros j Hj. rewrite Hlen. apply Hlt. now right.
      * intros j n Hj Hn. cbn [world]. apply (Hbefore (S j) n); [lia | exact Hn].
Qed.

Lemma indices_of_names (names : list string) :
  Forall2 (fun i name => names !! i = Some name) (seq 0 (length names)) names.
Proof.
  apply Forall2_same_length_lookup_2.
  - now rewrite length_seq.
  - intros i j name Hj Hname. apply lookup_seq in Hj as [-> _]. exact Hname.
Qed.

(** The skipping branch of [create_bsds]. *)
Lemma create_bsds_skips source_url folder path_to_bsds path_to_list_rotation path_to_tar
    (st : state World) :
  isfile env (world st) path_to_bsds = true ->
  isfile env (world st) path_to_list_rotation = true ->
  create_bsds env source_url folder path_to_bsds path_to_list_rotation path_to_tar st
  = (Ok tt,
     MkState (world st)
       (trace st ++ map Printed
          [(quoted path_to_bsds ++ " and " ++ quoted path_to_list_rotation
            ++ " already exist.")%string;
           "Delete them manually to recreate the BSDS test set."])).
Proof.
  intros H1 H2. unfold create_bsds, bind, os_path_isfile.
  rewrite H1. cbv beta iota. rewrite H2.
  cbv [print emit world trace]. cbn [map]. now rewrite <- app_assoc.
Qed.

(** X1.  A run of [create_bsds] that builds the set and raises,
    whatever it raises, has written no file: the world is the one the
    archive handling left, and no event of the run is a write. *)
Theorem create_bsds_failure_writes_nothing
    source_url folder path_to_bsds path_to_list_rotation path_to_tar (st : state World) e :
  isfile env (world st) path_to_bsds && isfile env (world st) path_to_list_rotation = false ->
  fst (create_bsds env source_url folder path_to_bsds path_to_list_rotation path_to_tar st)
  = Raise e ->
  world (snd (create_bsds env source_url folder path_to_bsds path_to_list_rotation
                          path_to_tar st))
  = world_after_fetch env source_url folder path_to_tar (world st)
  /\ exists evs,
       trace (snd (create_bsds env source_url folder path_to_bsds path_to_list_rotation
                               path_to_tar st))
       = trace st ++ evs
       /\ quiet evs.
Proof.
  intros Hbuild. rewrite (create_bsds_builds env _ _ _ _ _ _ Hbuild).
  rewrite build_bsds_unfolded.
  pose proof (fetch_events_quiet source_url folder path_to_tar (world st)) as Hq0.
  destruct (negb (Nat.eqb (length (bsds_names env
              (world_after_fetch env source_url folder path_to_tar (world st)) folder)) 100)).
  { intros _. cbn [fst snd world trace]. split; [reflexivity |]. eauto. }
  destruct (bsds_loop_run env (test_folder folder)
              (bsds_names env (world_after_fetch env source_url folder path_to_tar (world st))
                          folder)
              (seq 0 100) (zeros_stack 100 320 480, [])
              (MkState (world_after_fetch env source_url folder path_to_tar (world st))
                       (trace st ++ fetch_events env source_url folder path_to_tar (world st))))
    as (evs & Hloop & Hq).
  rewrite Hloop. cbn [world trace].
  destruct (bsds_steps env _ _ _ _ _) as [acc | e']; [discriminate |].
  intros _. cbn [fst snd world trace]. split; [reflexivity |].
  exists (fetch_events env source_url folder path_to_tar (world st) ++ evs).
  split; [now rewrite app_assoc | now apply quiet_app].
Qed.

(** The usable images of a run of turns that went well. *)
Lemma bsds_steps_ok_usable w folder names indices ref rot ref' rot' :
  bsds_steps env w folder names indices (ref, rot) = Ok (ref', rot') ->
  plane_rows ref = 320 -> plane_cols ref = 480 ->
  forall i name, i ∈ indices -> names !! i = Some name -> turn_error env w folder name = None.
Proof.
  intros Hsteps Hr Hc i name Hi Hname.
  destruct (bsds_steps_ok env _ _ _ _ _ _ _ _ Hsteps Hr Hc) as (_ & _ & _ & _ & Hin & _).
  destruct (Hin i Hi) as (l & Hl & Hshape & _).
  unfold luminance_at in Hl. rewrite Hname in Hl. unfold turn_error.
  destruct (luminance_of env w (path_join folder name)) as [e | l']; [discriminate |].
  inversion Hl; subst l'. now rewrite Hshape.
Qed.

(** X2.  A run of [create_bsds] that builds the set and returns does
    exactly this, in this order: it handles the archive, reads the 100
    listed images as RGB, each once, in the order of the sorted
    listing, saves the array and dumps the rotation list.  The world
    it leaves is the world after the archive handling with the two
    files written. *)
Theorem create_bsds_trace_of_success
    source_url folder path_to_bsds path_to_list_rotation path_to_tar (st : state World) :
  isfile env (world st) path_to_bsds && isfile env (world st) path_to_list_rotation = false ->
  fst (create_bsds env source_url folder path_to_bsds path_to_list_rotation path_to_tar st)
  = Ok tt ->
  let w := world_after_fetch env source_url folder path_to_tar (world st) in
  exists reference_uint8 list_rotation,
    snd (create_bsds env source_url folder path_to_bsds path_to_list_rotation path_to_tar st)
    = MkState
        (pickle_dump env path_to_list_rotation list_rotation
           (numpy_save env path_to_bsds reference_uint8 w))
        (trace st
         ++ fetch_events env source_url folder path_to_tar (world st)
         ++ map (read_event (test_folder folder)) (bsds_names env w folder)
         ++ [NpySaved path_to_bsds reference_uint8;
             PickleDumped path_to_list_rotation list_rotation 2]).
Proof.
  intros Hbuild. rewrite (create_bsds_builds env _ _ _ _ _ _ Hbuild).
  rewrite build_bsds_unfolded. intros Hok w. fold w in Hok |- *.
  set (names := bsds_names env w folder) in *.
  set (st1 := MkState w (trace st ++ fetch_events env source_url folder path_to_tar (world st)))
    in *.
  destruct (Nat.eqb (length names) 100) eqn:Hlen; cbn [negb] in Hok |- *; [| discriminate].
  apply Nat.eqb_eq in Hlen.
  destruct (bsds_loop_run env (test_folder folder) names (seq 0 100)
              (zeros_stack 100 320 480, []) st1) as (evs & Hloop & _).
  destruct (bsds_steps env (world st1) (test_folder folder) names (seq 0 100)
              (zeros_stack 100 320 480, [])) as [[ref rot] | e] eqn:Hsteps.
  2:{ rewrite Hloop in Hok. discriminate. }
  destruct (bsds_loop_all_usable (test_folder folder) names (seq 0 100) names
              (zeros_stack 100 320 480, []) st1) as (acc' & Hall).
  - rewrite <- Hlen. apply indices_of_names.
  - intros i Hi. apply elem_of_seq in Hi. cbn [fst zeros_stack planes].
    rewrite repeat_length. lia.
  - reflexivity.
  - reflexivity.
  - intros name Hname. apply list_elem_of_lookup in Hname as [i Hi].
    eapply (bsds_steps_ok_usable _ _ _ _ _ _ _ _ Hsteps eq_refl eq_refl i); [| exact Hi].
    apply elem_of_seq. apply lookup_lt_Some in Hi. lia.
  - rewrite Hall. exists (fst acc'), (snd acc'). subst st1. cbn [world trace snd].
    now rewrite <- !app_assoc.
Qed.

(** X3.  In a run of [create_bsds] that builds the set from a listing
    of 100 names: when the image at position [k] is the first that is
    not usable (a helper fails on it, or it is neither 321x481 nor
    481x321), the run raises the error of that image, the helper's own
    or the [ValueError] that names the file.  It has then read the
    images up to that one, in order, and no image after it, and it has
    written nothing. *)
Theorem create_bsds_raises_first_unusable
    source_url folder path_to_bsds path_to_list_rotation path_to_tar (st : state World)
    k name e :
  isfile env (world st) path_to_bsds && isfile env (world st) path_to_list_rotation = false ->
  let w := world_after_fetch env source_url folder path_to_tar (world st) in
  let names := bsds_names env w folder in
  length names = 100 ->
  names !! k = Some name ->
  turn_error env w (test_folder folder) name = Some e ->
  (forall j n, j < k -> names !! j = Some n ->
               turn_error env w (test_folder folder) n = None) ->
  create_bsds env source_url folder path_to_bsds path_to_list_rotation path_to_tar st
  = (Raise e,
     MkState w (trace st
                ++ fetch_events env source_url folder path_to_tar (world st)
                ++ map (read_event (test_folder folder)) (take (S k) names))).
Proof.
  intros Hbuild w names Hlen Hk He Hbefore.
  rewrite (create_bsds_builds env _ _ _ _ _ _ Hbuild).
  rewrite build_bsds_unfolded. fold w names.
  rewrite Hlen. cbn [Nat.eqb negb].
  rewrite (bsds_loop_first_unusable (test_folder folder) names (seq 0 100) names k name e).
  - cbn [world trace]. now rewrite <- app_assoc.
  - rewrite <- Hlen. apply indices_of_names.
  - intros i Hi. apply elem_of_seq in Hi. cbn [fst zeros_stack planes].
    rewrite repeat_length. lia.
  - reflexivity.
  - reflexivity.
  - exact Hk.
  - exact He.
  - exact Hbefore.
Qed.

(** The world that a building run of [create_bsds] that returns
    leaves. *)
Lemma create_bsds_success_world
    source_url folder path_to_bsds path_to_list_rotation path_to_tar (st : state World) :
  isfile env (world st) path_to_bsds && isfile env (world st) path_to_list_rotation = false ->
  fst (create_bsds env source_url folder path_to_bsds path_to_list_rotation path_to_tar st)
  = Ok tt ->
  exists reference_uint8 list_rotation w,
    world (snd (create_bsds env source_url folder path_to_bsds path_to_list_rotation
                            path_to_tar st))
    = pickle_dump env path_to_list_rotation list_rotation
        (numpy_save env path_to_bsds reference_uint8 w).
Proof.
  intros Hbuild. rewrite (create_bsds_builds env _ _ _ _ _ _ Hbuild).
  destruct (build_bsds_run env source_url folder path_to_bsds path_to_list_rotation
              path_to_tar st) as (evs & _ & ->).
  destruct (negb _); [discriminate |].
  destruct (bsds_steps env _ _ _ _ _) as [acc | e]; [| discriminate].
  intros _. cbn [snd world]. eauto.
Qed.

(** X4.  On a file system that keeps what is written, a run of
    [create_bsds] that returns makes the next run with the same paths
    a run that only prints: it fetches no archive, reads no image and
    writes nothing, and it leaves the world as it finds it. *)
Theorem create_bsds_rerun_only_prints
    source_url folder path_to_bsds path_to_list_rotation path_to_tar (st : state World) :
  keeps_files env ->
  fst (create_bsds env source_url folder path_to_bsds path_to_list_rotation path_to_tar st)
  = Ok tt ->
  exists lines,
    create_bsds env source_url folder path_to_bsds path_to_list_rotation path_to_tar
      (snd (create_bsds env source_url folder path_to_bsds path_to_list_rotation
                        path_to_tar st))
    = (Ok tt,
       MkState
         (world (snd (create_bsds env source_url folder path_to_bsds path_to_list_rotation
                                  path_to_tar st)))
         (trace (snd (create_bsds env source_url folder path_to_bsds path_to_list_rotation
                                  path_to_tar st))
          ++ map Printed lines)).
Proof.
  intros (Hsave & Hdump & Hsave_keeps & Hdump_keeps) Hok.
  eexists. apply create_bsds_skips.
  - destruct (isfile env (world st) path_to_bsds
              && isfile env (world st) path_to_list_rotation) eqn:Hexist.
    + apply andb_true_iff in Hexist as [H1 H2].
      rewrite (create_bsds_skips _ _ _ _ _ _ H1 H2). exact H1.
    + destruct (create_bsds_success_world _ _ _ _ _ _ Hexist Hok)
        as (ref & rot & w & ->).
      apply Hdump_keeps, Hsave.
  - destruct (isfile env (world st) path_to_bsds
              && isfile env (world st) path_to_list_rotation) eqn:Hexist.
    + apply andb_true_iff in Hexist as [H1 H2].
      rewrite (create_bsds_skips _ _ _ _ _ _ H1 H2). exact H2.
    + destruct (create_bsds_success_world _ _ _ _ _ _ Hexist Hok)
        as (ref & rot & w & ->).
      apply Hdump.
Qed.

End BsdsMore.

Section ImagenetMore.

Context {World : Type} (env : Env World).

(** The building branch of [create_imagenet], with the archive handled
    and the listing taken. *)
Lemma build_imagenet_unfolded folder width_crop nb_training nb_validation
    path_to_training path_to_validation path_to_tar (st : state World) :
  let w := world_after_untar env folder path_to_tar (world st) in
  let names := imagenet_names env w folder in
  let nb_total := (nb_training + nb_validation)%Z in
  let st1 := MkState w (trace st ++ untar_events folder path_to_tar) in
  build_imagenet env folder width_crop nb_training nb_validation
                 path_to_training path_to_validation path_to_tar st
  = if (nb_total <? 0)%Z || (width_crop <? 0)%Z then
      (Raise (ValueError "negative dimensions are not allowed"), st1)
    else
      match imagenet_loop env folder width_crop nb_training nb_total names 0%Z
              (zeros_stack (Z.to_nat nb_total) (Z.to_nat width_crop) (Z.to_nat width_crop))
              st1 with
      | (Ok (i, luminances'), st2) =>
          if negb (i =? nb_total)%Z then
            (Raise (RuntimeError
                      ("There are not enough ImageNet RGB images at "
                       ++ quoted folder
                       ++ " to create the ImageNet training and validation sets.")%string),
             st2)
          else
            (Ok tt,
             MkState
               (numpy_save env path_to_validation
                  (slice_stack nb_training nb_total luminances')
                  (numpy_save env path_to_training
                     (slice_stack 0 nb_training luminances') (world st2)))
               (trace st2
                ++ [NpySaved path_to_training (slice_stack 0 nb_training luminances');
                    NpySaved path_to_validation
                      (slice_stack nb_training nb_total luminances')]))
      | (Raise e, st2) => (Raise e, st2)
      end.
Proof.
  intros w names nb_total st1.
  assert (Huntar :
    (if truthy path_to_tar then tls_untar_archive env folder path_to_tar else ret tt) st
    = (Ok tt, st1)).
  { subst st1 w. unfold world_after_untar, untar_events. destruct (truthy path_to_tar).
    - reflexivity.
    - rewrite app_nil_r. now destruct st. }
  unfold build_imagenet. unfold bind at 1. rewrite Huntar.
  fold nb_total. unfold bind at 1, numpy_zeros_crops.
  destruct ((nb_total <? 0)%Z || (width_crop <? 0)%Z); [reflexivity |].
  unfold ret at 1. cbv beta iota.
  unfold bind at 1, os_listdir. subst st1. cbn [world trace].
  fold (imagenet_names env w folder). fold names.
  unfold bind at 1.
  destruct (imagenet_loop env folder width_crop nb_training nb_total names 0%Z
              (zeros_stack (Z.to_nat nb_total) (Z.to_nat width_crop) (Z.to_nat width_crop))
              (MkState w (trace st ++ untar_events folder path_to_tar)))
    as [[[i lum] | e] st2]; [| reflexivity].
  destruct (negb (i =? nb_total)%Z); [reflexivity |].
  unfold bind, numpy_save_m. cbn [world trace].
  now rewrite <- app_assoc.
Qed.

(** The skipping branch of [create_imagenet]. *)
Lemma create_imagenet_skips folder width_crop nb_training nb_validation
    path_to_training path_to_validation path_to_tar (st : state World) :
  isfile env (world st) path_to_training = true ->
  isfile env (world st) path_to_validation = true ->
  create_imagenet env folder width_crop nb_training nb_validation
                  path_to_training path_to_validation path_to_tar st
  = (Ok tt,
     MkState (world st)
       (trace st ++ map Printed
          [(quoted path_to_training ++ " and " ++ quoted path_to_validation
            ++ " already exist.")%string;
           "Delete them manually to recreate the ImageNet training and validation sets."])).
Proof.
  intros H1 H2. unfold create_imagenet, bind, os_path_isfile.
  rewrite H1. cbv beta iota. rewrite H2.
  cbv [print emit world trace]. cbn [map]. now rewrite <- app_assoc.
Qed.

(** X5.  A run of [create_imagenet] that builds the sets with a
    negative crop width, or with numbers of crops whose sum is
    negative, raises the [ValueError] of [numpy.zeros] before it lists
    the folder: it has extracted the archive if one was given, and it
    has read no image and written no file. *)
Theorem create_imagenet_negative_size
    folder width_crop nb_training nb_validation
    path_to_training path_to_validation path_to_tar (st : state World) :
  isfile env (world st) path_to_training && isfile env (world st) path_to_validation = false ->
  (nb_training + nb_validation < 0 \/ width_crop < 0)%Z ->
  create_imagenet env folder width_crop nb_training nb_validation
                  path_to_training path_to_validation path_to_tar st
  = (Raise (ValueError "negative dimensions are not allowed"),
     MkState (world_after_untar env folder path_to_tar (world st))
             (trace st ++ untar_events folder path_to_tar)).
Proof.
  intros Hbuild Hneg.
  rewrite (create_imagenet_builds env _ _ _ _ _ _ _ _ Hbuild).
  rewrite build_imagenet_unfolded.
  destruct (Z.ltb_spec (nb_training + nb_validation) 0);
    destruct (Z.ltb_spec width_crop 0); cbn [orb]; try reflexivity.
  lia.
Qed.

(** The world that a building run of [create_imagenet] that returns
    leaves. *)
Lemma create_imagenet_success_world
    folder width_crop nb_training nb_validation
    path_to_training path_to_validation path_to_tar (st : state World) :
  isfile env (world st) path_to_training && isfile env (world st) path_to_validation = false ->
  fst (create_imagenet env folder width_crop nb_training nb_validation
                       path_to_training path_to_validation path_to_tar st) = Ok tt ->
  exists training_data validation_data w,
    world (snd (create_imagenet env folder width_crop nb_training nb_validation
                                path_to_training path_to_validation path_to_tar st))
    = numpy_save env path_to_validation validation_data
        (numpy_save env path_to_training training_data w).
Proof.
  intros Hbuild. rewrite (create_imagenet_builds env _ _ _ _ _ _ _ _ Hbuild).
  rewrite build_imagenet_unfolded.
  destruct (_ || _); [discriminate |].
  destruct (imagenet_loop _ _ _ _ _ _ _ _ _) as [[[i lum] | e] st2]; [| discriminate].
  destruct (negb _); [discriminate |].
  intros _. cbn [snd world]. eauto.
Qed.

(** X6.  On a file system that keeps what is written, a run of
    [create_imagenet] that returns makes the next run with the same
    paths a run that only prints: it extracts no archive, reads no
    image and writes nothing, and it leaves the world as it finds it. *)
Theorem create_imagenet_rerun_only_prints
    folder width_crop nb_training nb_validation
    path_to_training path_to_validation path_to_tar (st : state World) :
  keeps_files env ->
  fst (create_imagenet env folder width_crop nb_training nb_validation
                       path_to_training path_to_validation path_to_tar st) = Ok tt ->
  exists lines,
    create_imagenet env folder width_crop nb_training nb_validation
      path_to_training path_to_validation path_to_tar
      (snd (create_imagenet env folder width_crop nb_training nb_validation
                            path_to_training path_to_validation path_to_tar st))
    = (Ok tt,
       MkState
         (world (snd (create_imagenet env folder width_crop nb_training nb_validation
                                      path_to_training path_to_validation path_to_tar st)))
         (trace (snd (create_imagenet env folder width_crop nb_training nb_validation
                                      path_to_training path_to_validation path_to_tar st))
          ++ map Printed lines)).
Proof.
  intros (Hsave & _ & Hsave_keeps & _) Hok.
  eexists. apply create_imagenet_skips.
  - destruct (isfile env (world st) path_to_training
              && isfile env (world st) path_to_validation) eqn:Hexist.
    + apply andb_true_iff in Hexist as [H1 H2].
      rewrite (create_imagenet_skips _ _ _ _ _ _ _ _ H1 H2). exact H1.
    + destruct (create_imagenet_success_world _ _ _ _ _ _ _ _ Hexist Hok)
        as (tr & va & w & ->).
      apply Hsave_keeps, Hsave.
  - destruct (isfile env (world st) path_to_training
              && isfile env (world st) path_to_validation) eqn:Hexist.
    + apply andb_true_iff in Hexist as [H1 H2].
      rewrite (create_imagenet_skips _ _ _ _ _ _ _ _ H1 H2). exact H2.
    + destruct (create_imagenet_success_world _ _ _ _ _ _ _ _ Hexist Hok)
        as (tr & va & w & ->).
      apply Hsave.
Qed.

Lemma broadcast_to_shape r c v p :
  broadcast_to r c v = Some p -> shape2 p = (r, c).
Proof.
  unfold broadcast_to, shape2.
  destruct (Nat.eqb (rows v) r && Nat.eqb (cols v) c) eqn:Hsame.
  - intros H. inversion H. subst p.
    apply andb_true_iff in Hsame as [Hr Hc].
    apply Nat.eqb_eq in Hr, Hc. now rewrite Hr, Hc.
  - destruct ((Nat.eqb (rows v) r || Nat.eqb (rows v) 1)
              && (Nat.eqb (cols v) c || Nat.eqb (cols v) 1)); [| discriminate].
    intros H. inversion H. reflexivity.
Qed.

Lemma set_plane_well_shaped i v (a a' : stack) :
  well_shaped a -> set_plane i v a = Ok a' ->
  well_shaped a' /\ plane_rows a' = plane_rows a /\ plane_cols a' = plane_cols a.
Proof.
  unfold set_plane, well_shaped. intros Ha.
  destruct (Nat.ltb i (length (planes a))); [| discriminate].
  destruct (broadcast_to (plane_rows a) (plane_cols a) v) as [p |] eqn:Hp; [| discriminate].
  intros H. inversion H. subst a'. cbn [planes plane_rows plane_cols].
  split; [| split; reflexivity].
  apply Forall_insert; [exact Ha |]. now apply broadcast_to_shape in Hp.
Qed.

Lemma slice_stack_well_shaped start stop (a : stack) :
  well_shaped a ->
  well_shaped (slice_stack start stop a)
  /\ plane_rows (slice_stack start stop a) = plane_rows a
  /\ plane_cols (slice_stack start stop a) = plane_cols a.
Proof.
  unfold well_shaped, slice_stack, py_slice. cbn [planes plane_rows plane_cols].
  intros Ha. split; [| split; reflexivity].
  now apply Forall_take, Forall_drop.
Qed.

Lemma zeros_stack_well_shaped n r c : well_shaped (zeros_stack n r c).
Proof.
  unfold well_shaped, zeros_stack. cbn [planes plane_rows plane_cols].
  induction n as [| n IH]; cbn [repeat]; constructor; [reflexivity | exact IH].
Qed.

(** The loop keeps the array a box of the same plane extent, whatever
    the crops are, and writes no file. *)
Lemma imagenet_loop_keeps_shape folder width_crop nb_training nb_total names :
  forall i (lum : stack) (st : state World) i' lum' st',
    well_shaped lum ->
    imagenet_loop env folder width_crop nb_training nb_total names i lum st
    = (Ok (i', lum'), st') ->
    well_shaped lum'
    /\ plane_rows lum' = plane_rows lum /\ plane_cols lum' = plane_cols lum
    /\ exists evs, trace st' = trace st ++ evs /\ quiet evs.
Proof.
  induction names as [| name names IH]; intros i lum st i' lum' st' Hlum.
  - cbn [imagenet_loop]. unfold ret. intros H. inversion H. subst.
    repeat split; try assumption.
    exists []. split; [now rewrite app_nil_r | constructor].
  - cbn [imagenet_loop]. unfold bind at 1. rewrite try_crop_run.
    destruct (attempt env (world st) (path_join folder name) width_crop
                (i <? nb_training)%Z) as [[e | c] w1]; cbn [fst snd].
    + unfold bind, print, emit. cbn [world trace]. intros Hrun.
      destruct (IH _ _ _ _ _ _ Hlum Hrun) as (Hs & Hr & Hc & evs & Htrace & Hq).
      repeat split; try assumption.
      exists ([ImageRead (path_join folder name) "RGB"; Printed (tls_message e);
               Printed (quoted (path_join folder name) ++ " is skipped." ++ lf)%string]
              ++ evs).
      split; [rewrite Htrace; cbn [trace]; now rewrite <- !app_assoc |].
      apply Forall_app. split; [repeat constructor | exact Hq].
    + unfold bind at 1, lift at 1.
      destruct (set_plane (Z.to_nat i) c lum) as [lum1 | e1] eqn:Hset; [| discriminate].
      destruct (set_plane_well_shaped _ _ _ _ Hlum Hset) as (Hs1 & Hr1 & Hc1).
      cbv zeta. destruct (i + 1 =? nb_total)%Z.
      * unfold ret. intros H. inversion H. subst.
        repeat split; try assumption.
        exists [ImageRead (path_join folder name) "RGB"].
        split; [reflexivity | repeat constructor].
      * intros Hrun.
        destruct (IH _ _ _ _ _ _ Hs1 Hrun) as (Hs & Hr & Hc & evs & Htrace & Hq).
        split; [exact Hs |]. split; [congruence |]. split; [congruence |].
        exists (ImageRead (path_join folder name) "RGB" :: evs).
        split; [rewrite Htrace; cbn [trace]; now rewrite <- app_assoc |].
        constructor; [reflexivity | exact Hq].
Qed.

(** X7.  A run of [create_imagenet] that builds the sets and returns
    saves two boxes of crops: in each array every crop has
    [width_crop] rows and [width_crop] columns, whatever sizes the
    crops returned by [tls.crop_option_2d] have, and nothing is
    written before the two saves. *)
Theorem create_imagenet_saves_boxes
    folder width_crop nb_training nb_validation
    path_to_training path_to_validation path_to_tar (st : state World) :
  isfile env (world st) path_to_training && isfile env (world st) path_to_validation = false ->
  fst (create_imagenet env folder width_crop nb_training nb_validation
                       path_to_training path_to_validation path_to_tar st) = Ok tt ->
  exists earlier training_data validation_data,
    trace (snd (create_imagenet env folder width_crop nb_training nb_validation
                                path_to_training path_to_validation path_to_tar st))
    = trace st ++ earlier ++ [NpySaved path_to_training training_data;
                              NpySaved path_to_validation validation_data]
    /\ quiet earlier
    /\ well_shaped training_data
    /\ shape2_of_planes training_data = (Z.to_nat width_crop, Z.to_nat width_crop)
    /\ well_shaped validation_data
    /\ shape2_of_planes validation_data = (Z.to_nat width_crop, Z.to_nat width_crop).
Proof.
  intros Hbuild. rewrite (create_imagenet_builds env _ _ _ _ _ _ _ _ Hbuild).
  rewrite build_imagenet_unfolded.
  destruct (_ || _); [discriminate |].
  destruct (imagenet_loop _ _ _ _ _ _ _ _ _) as [[[i lum] | e] st2] eqn:Hloop;
    [| discriminate].
  destruct (negb _); [discriminate |].
  intros _. cbn [snd trace].
  destruct (imagenet_loop_keeps_shape _ _ _ _ _ _ _ _ _ _ _
              (zeros_stack_well_shaped _ _ _) Hloop)
    as (Hs & Hr & Hc & evs & Htrace & Hq).
  cbn [trace zeros_stack plane_rows plane_cols] in Htrace, Hr, Hc.
  exists (untar_events folder path_to_tar ++ evs),
         (slice_stack 0 nb_training lum),
         (slice_stack nb_training (nb_training + nb_validation) lum).
  split; [rewrite Htrace; now rewrite <- !app_assoc |].
  split.
  { apply Forall_app. split; [| exact Hq].
    unfold untar_events. destruct (truthy path_to_tar); repeat constructor. }
  destruct (slice_stack_well_shaped 0 nb_training lum Hs) as (Ht & Htr & Htc).
  destruct (slice_stack_well_shaped nb_training (nb_training + nb_validation) lum Hs)
    as (Hv & Hvr & Hvc).
  unfold shape2_of_planes.
  repeat split; try assumption; congruence.
Qed.

Section Scan.

Variables (folder : string) (width_crop nb_training : Z).

Hypothesis crop_shape :
  forall a b w c w',
    crop_option_2d env a width_crop b w = (inr c, w') ->
    shape2 c = (Z.to_nat width_crop, Z.to_nat width_crop).

Lemma crops_of_length names :
  forall count (w : World),
    length (crops_of env folder width_crop nb_training names count w) <= length names.
Proof.
  induction names as [| name names IH]; intros count w; [reflexivity |].
  cbn [crops_of length].
  destruct (attempt env w (path_join folder name) width_crop (count <? nb_training)%Z)
    as [[e | c] w1].
  - specialize (IH count w1). lia.
  - cbn [length]. specialize (IH (count + 1)%Z w1). lia.
Qed.

Lemma crops_of_shape names :
  forall count (w : World),
    Forall (fun c => shape2 c = (Z.to_nat width_crop, Z.to_nat width_crop))
           (crops_of env folder width_crop nb_training names count w).
Proof.
  induction names as [| name names IH]; intros count w; [constructor |].
  cbn [crops_of].
  destruct (attempt env w (path_join folder name) width_crop (count <? nb_training)%Z)
    as [[e | c] w1] eqn:Hatt.
  - apply IH.
  - constructor; [| apply IH].
    destruct (attempt_shape env _ crop_shape _ _ _ _ _ Hatt) as [Hr Hc].
    unfold shape2. now rewrite Hr, Hc.
Qed.

(** The loop with room for [rest]: the images it reads are the first
    [k] of the listing, where [k] is the least number of images that
    fill the room, or all of them; an image that gives no crop gets two
    printed lines. *)
Lemma imagenet_loop_scan names :
  forall (done rest : list ndarray2) (st : state World),
    rest <> [] ->
    let n := Z.to_nat width_crop in
    let i := Z.of_nat (length done) in
    let cs := crops_of env folder width_crop nb_training names i (world st) in
    exists k r st' evs,
      imagenet_loop env folder width_crop nb_training
                    (Z.of_nat (length done + length rest))
                    names i (Stack (done ++ rest) n n) st
      = (r, st')
      /\ trace st' = trace st ++ evs
      /\ k <= length names
      /\ image_reads evs = map (path_join folder) (take k names)
      /\ crops_of env folder width_crop nb_training (take k names) i (world st)
         = take (length rest) cs
      /\ (length cs < length rest -> k = length names)
      /\ (forall j, j < k ->
            length (crops_of env folder width_crop nb_training (take j names) i (world st))
            < length rest)
      /\ length (printed evs) = 2 * (k - length (take (length rest) cs)).
Proof.
  induction names as [| name names IH]; intros done rest st Hrest n i cs.
  - exists 0, (Ok (i, Stack (done ++ rest) n n)), st, [].
    subst cs. cbn [crops_of take length map image_reads printed flat_map].
    rewrite app_nil_r, take_nil. cbn [length].
    repeat split; try reflexivity; try lia.
  - subst n i cs. cbn [imagenet_loop crops_of].
    unfold bind at 1. rewrite try_crop_run. cbn [world].
    destruct (attempt env (world st) (path_join folder name) width_crop
                (Z.of_nat (length done) <? nb_training)%Z) as [[e | c] w1] eqn:Hatt;
      cbn [fst snd].
    + (* the image is skipped *)
      set (st1 := MkState w1 (((trace st ++ [ImageRead (path_join folder name) "RGB"])
                                ++ [Printed (tls_message e)])
                               ++ [Printed (quoted (path_join folder name) ++ " is skipped."
                                            ++ lf)%string])).
      destruct (IH done rest st1 Hrest) as (k & r & st' & evs & Hrun & Htrace & Hk & Hreads
                                            & Hcrops & Hall & Hmin & Hprints).
      subst st1. cbn [world] in Hcrops, Hall, Hmin, Hprints.
      exists (S k), r, st',
        ([ImageRead (path_join folder name) "RGB"; Printed (tls_message e);
          Printed (quoted (path_join folder name) ++ " is skipped." ++ lf)%string] ++ evs).
      split; [| split; [| split; [| split; [| split; [| split; [| split]]]]]].
      * unfold bind, print, emit. cbn [world trace]. exact Hrun.
      * rewrite Htrace. cbn [trace]. now rewrite <- !app_assoc.
      * cbn [length]. lia.
      * rewrite image_reads_app, Hreads. reflexivity.
      * cbn [take crops_of]. rewrite Hatt. exact Hcrops.
      * intros Hlt. cbn [length]. f_equal. now apply Hall.
      * intros j Hj. destruct j as [| j].
        -- cbn [take crops_of length]. destruct rest; [contradiction | cbn [length]; lia].
        -- cbn [take crops_of]. rewrite Hatt. apply Hmin. lia.
      * rewrite printed_app, length_app, Hprints. cbn [printed flat_map app length].
        assert (Hle : length (take (length rest)
                         (crops_of env folder width_crop nb_training names
                            (Z.of_nat (length done)) w1)) <= k).
        { rewrite <- Hcrops. etransitivity; [apply crops_of_length |].
          rewrite length_take. lia. }
        lia.
    + (* the crop is stored *)
      destruct rest as [| z rest']; [contradiction |].
      destruct (attempt_shape env _ crop_shape _ _ _ _ _ Hatt) as [Hrows Hcols].
      unfold bind at 1, lift at 1. rewrite Nat2Z.id.
      rewrite set_plane_exact; cbn [planes plane_rows plane_cols]; try assumption.
      2:{ rewrite length_app. cbn [length]. lia. }
      replace (<[length done := c]> (done ++ z :: rest')) with ((done ++ [c]) ++ rest').
      2:{ rewrite <- app_assoc. cbn [app].
          replace (length done) with (length done + 0) at 1 by lia.
          now rewrite insert_app_r. }
      set (st1 := MkState w1 (trace st ++ [ImageRead (path_join folder name) "RGB"])).
      cbv zeta. destruct rest' as [| z' rest'']; cbn [length].
      * (* the array is full: break *)
        assert (E : (Z.of_nat (length done) + 1 =? Z.of_nat (length done + 1))%Z = true)
          by (apply Z.eqb_eq; lia).
        rewrite E. clear E.
        eexists 1, _, st1, [ImageRead (path_join folder name) "RGB"].
        split; [reflexivity |].
        split; [reflexivity |].
        split; [lia |].
        split; [reflexivity |].
        split; [cbn [take crops_of]; now rewrite Hatt |].
        split; [intros Hlt; lia |].
        split.
        -- intros j Hj. assert (j = 0) as -> by lia. cbn. lia.
        -- cbn. lia.
      * assert (E : (Z.of_nat (length done) + 1
                     =? Z.of_nat (length done + S (S (length rest''))))%Z = false)
          by (apply Z.eqb_neq; lia).
        rewrite E. clear E.
        destruct (IH (done ++ [c]) (z' :: rest'') st1)
          as (k & r & st' & evs & Hrun & Htrace & Hk & Hreads
              & Hcrops & Hall & Hmin & Hprints); [discriminate |].
        subst st1.
        rewrite length_app in Hrun, Hcrops, Hall, Hmin, Hprints.
        cbn [length world] in Hrun, Hcrops, Hall, Hmin, Hprints.
        replace (Z.of_nat (length done + 1)) with (Z.of_nat (length done) + 1)%Z
          in Hrun, Hcrops, Hall, Hmin, Hprints by lia.
        replace (length done + 1 + S (length rest'')) with (length done + S (S (length rest'')))
          in Hrun by lia.
        exists (S k), r, st', (ImageRead (path_join folder name) "RGB" :: evs).
        split; [exact Hrun |].
        split; [rewrite Htrace; cbn [trace]; now rewrite <- app_assoc |].
        split; [cbn [length]; lia |].
        split; [cbn [image_reads flat_map app take map]; f_equal; exact Hreads |].
        split; [cbn [take crops_of]; rewrite Hatt; cbn [take]; f_equal; exact Hcrops |].
        split; [intros Hlt; cbn [length] in Hlt |- *; f_equal; apply Hall; lia |].
        split.
        -- intros j Hj. destruct j as [| j].
           ++ cbn. lia.
           ++ cbn [take crops_of]. rewrite Hatt. cbn [length].
              specialize (Hmin j). lia.
        -- cbn [printed flat_map app take length]. fold (printed evs).
           rewrite Hprints. cbn [length]. lia.
Qed.

End Scan.

(** The loop of a building run that asks for at least one crop. *)
Lemma imagenet_loop_from_zeros folder width_crop nb_training nb_validation
    path_to_tar (st : state World) :
  (1 <= nb_training + nb_validation)%Z ->
  (forall a b w c w',
      crop_option_2d env a width_crop b w = (inr c, w') ->
      shape2 c = (Z.to_nat width_crop, Z.to_nat width_crop)) ->
  let w := world_after_untar env folder path_to_tar (world st) in
  let names := imagenet_names env w folder in
  let crops := crops_of env folder width_crop nb_training names 0 w in
  let nb_total := Z.to_nat (nb_training + nb_validation) in
  exists k lum st2 evs,
    imagenet_loop env folder width_crop nb_training (nb_training + nb_validation) names 0%Z
      (zeros_stack nb_total (Z.to_nat width_crop) (Z.to_nat width_crop))
      (MkState w (trace st ++ untar_events folder path_to_tar))
    = (Ok (Z.of_nat (Nat.min (length crops) nb_total), lum), st2)
    /\ trace st2 = trace st ++ untar_events folder path_to_tar ++ evs
    /\ quiet evs
    /\ k <= length names
    /\ image_reads evs = map (path_join folder) (take k names)
    /\ crops_of env folder width_crop nb_training (take k names) 0 w = take nb_total crops
    /\ (length crops < nb_total -> k = length names)
    /\ (forall j, j < k ->
          length (crops_of env folder width_crop nb_training (take j names) 0 w) < nb_total)
    /\ length (printed evs) = 2 * (k - length (take nb_total crops)).
Proof.
  intros Htotal Hcrop w names crops nb_total.
  set (zeros := repeat (zeros2 (Z.to_nat width_crop) (Z.to_nat width_crop)) nb_total).
  set (st1 := MkState w (trace st ++ untar_events folder path_to_tar)).
  assert (Hroom : zeros <> []).
  { subst zeros. destruct nb_total eqn:E; [lia | discriminate]. }
  assert (Hlen : length zeros = nb_total) by apply repeat_length.
  pose proof (imagenet_loop_run env folder width_crop nb_training Hcrop names
                [] zeros st1 Hroom) as Hrun.
  pose proof (imagenet_loop_scan folder width_crop nb_training Hcrop names
                [] zeros st1 Hroom) as Hscan.
  cbv zeta in Hrun, Hscan. rewrite Hlen in Hrun, Hscan.
  cbn [length app world Nat.add] in Hrun, Hscan. subst st1. cbn [world trace] in Hrun, Hscan.
  change (Z.of_nat 0) with 0%Z in Hrun, Hscan.
  fold crops in Hrun, Hscan.
  replace (Z.of_nat nb_total) with (nb_training + nb_validation)%Z in Hrun, Hscan by lia.
  destruct Hrun as (st2 & evs & Hrun & Htrace & Hq).
  destruct Hscan as (k & r & st2' & evs' & Hscan & Htrace' & Hk & Hreads & Hcrops
                     & Hall & Hmin & Hprints).
  unfold zeros_stack. fold zeros.
  rewrite Hrun in Hscan. inversion Hscan. subst r st2'.
  assert (evs' = evs) as ->.
  { rewrite Htrace in Htrace'. now apply app_inv_head in Htrace'. }
  eexists k, _, st2, evs.
  split; [exact Hrun |].
  split; [rewrite Htrace; now rewrite <- app_assoc |].
  repeat split; assumption.
Qed.

(** X8.  A run of [create_imagenet] that builds the sets, for at
    least one crop, reads the images of the sorted listing in order and
    stops reading as soon as the array is full: with [k] the least
    number of listed images that give
    [nb_training + nb_validation] crops, or the length of the listing
    if there are not that many crops, the images that the run reads
    are the first [k] of the listing, each once, and the run prints two
    lines for each of them that gives no crop and nothing else. *)
Theorem create_imagenet_reads_until_full
    folder width_crop nb_training nb_validation
    path_to_training path_to_validation path_to_tar (st : state World) :
  isfile env (world st) path_to_training && isfile env (world st) path_to_validation = false ->
  (0 <= width_crop)%Z -> (1 <= nb_training + nb_validation)%Z ->
  (forall a b w c w',
      crop_option_2d env a width_crop b w = (inr c, w') ->
      shape2 c = (Z.to_nat width_crop, Z.to_nat width_crop)) ->
  let w := world_after_untar env folder path_to_tar (world st) in
  let names := imagenet_names env w folder in
  let crops := crops_of env folder width_crop nb_training names 0 w in
  let nb_total := Z.to_nat (nb_training + nb_validation) in
  let res := create_imagenet env folder width_crop nb_training nb_validation
                             path_to_training path_to_validation path_to_tar st in
  exists k,
    k <= length names
    /\ crops_of env folder width_crop nb_training (take k names) 0 w = take nb_total crops
    /\ (length crops < nb_total -> k = length names)
    /\ (forall j, j < k ->
          length (crops_of env folder width_crop nb_training (take j names) 0 w) < nb_total)
    /\ image_reads (trace (snd res))
       = image_reads (trace st) ++ map (path_join folder) (take k names)
    /\ length (printed (trace (snd res)))
       = length (printed (trace st)) + 2 * (k - length (take nb_total crops)).
Proof.
  intros Hbuild Hwidth Htotal Hcrop w names crops nb_total res.
  destruct (imagenet_loop_from_zeros folder width_crop nb_training nb_validation
              path_to_tar st Htotal Hcrop)
    as (k & lum & st2 & evs & Hloop & Htrace & Hq & Hk & Hreads & Hcrops
        & Hall & Hmin & Hprints).
  fold w names crops nb_total in Hloop, Hk, Hreads, Hcrops, Hall, Hmin, Hprints.
  assert (Hres : res = build_imagenet env folder width_crop nb_training nb_validation
                         path_to_training path_to_validation path_to_tar st)
    by apply (create_imagenet_builds env _ _ _ _ _ _ _ _ Hbuild).
  clearbody res. rewrite build_imagenet_unfolded in Hres.
  fold w names in Hres.
  destruct (Z.ltb_spec (nb_training + nb_validation) 0) as [Hneg | _]; [lia |].
  destruct (Z.ltb_spec width_crop 0) as [Hneg | _]; [lia |].
  cbn [orb] in Hres. fold nb_total in Hres. rewrite Hloop in Hres.
  assert (Huntar_reads : image_reads (untar_events folder path_to_tar) = []).
  { unfold untar_events. now destruct (truthy path_to_tar). }
  assert (Huntar_prints : printed (untar_events folder path_to_tar) = []).
  { unfold untar_events. now destruct (truthy path_to_tar). }
  exists k.
  split; [exact Hk |]. split; [exact Hcrops |]. split; [exact Hall |].
  split; [exact Hmin |].
  destruct (negb _) in Hres; rewrite Hres; cbn [snd trace]; rewrite Htrace;
    rewrite ?image_reads_app, ?printed_app, ?length_app,
            Huntar_reads, Huntar_prints, Hreads, Hprints;
    cbn [image_reads printed flat_map app length];
    rewrite ?app_nil_r; split; try reflexivity; lia.
Qed.

(** X9.  A run of [create_imagenet] that builds the sets for at least
    one crop either returns or raises the [RuntimeError] of line 105:
    no [TypeError] or [ValueError] of the helpers of [tools.tools]
    leaves the loop.  It returns iff the images of the sorted listing
    give at least [nb_training + nb_validation] crops. *)
Theorem create_imagenet_returns_or_runtime_error
    folder width_crop nb_training nb_validation
    path_to_training path_to_validation path_to_tar (st : state World) :
  isfile env (world st) path_to_training && isfile env (world st) path_to_validation = false ->
  (0 <= width_crop)%Z -> (1 <= nb_training + nb_validation)%Z ->
  (forall a b w c w',
      crop_option_2d env a width_crop b w = (inr c, w') ->
      shape2 c = (Z.to_nat width_crop, Z.to_nat width_crop)) ->
  let w := world_after_untar env folder path_to_tar (world st) in
  let names := imagenet_names env w folder in
  let crops := crops_of env folder width_crop nb_training names 0 w in
  let nb_total := Z.to_nat (nb_training + nb_validation) in
  let res := create_imagenet env folder width_crop nb_training nb_validation
                             path_to_training path_to_validation path_to_tar st in
  fst res
  = (if Nat.leb nb_total (length crops) then Ok tt
     else Raise (RuntimeError
                   ("There are not enough ImageNet RGB images at "
                    ++ quoted folder
                    ++ " to create the ImageNet training and validation sets.")%string)).
Proof.
  intros Hbuild Hwidth Htotal Hcrop w names crops nb_total res.
  destruct (imagenet_loop_from_zeros folder width_crop nb_training nb_validation
              path_to_tar st Htotal Hcrop)
    as (k & lum & st2 & evs & Hloop & _).
  fold w names crops nb_total in Hloop.
  assert (Hres : res = build_imagenet env folder width_crop nb_training nb_validation
                         path_to_training path_to_validation path_to_tar st)
    by apply (create_imagenet_builds env _ _ _ _ _ _ _ _ Hbuild).
  clearbody res. rewrite build_imagenet_unfolded in Hres.
  fold w names in Hres.
  destruct (Z.ltb_spec (nb_training + nb_validation) 0) as [Hneg | _]; [lia |].
  destruct (Z.ltb_spec width_crop 0) as [Hneg | _]; [lia |].
  cbn [orb] in Hres. fold nb_total in Hres. rewrite Hloop in Hres.
  destruct (Nat.leb_spec nb_total (length crops)) as [Henough | Hfew].
  - rewrite Nat.min_r in Hres by lia.
    replace (Z.of_nat nb_total) with (nb_training + nb_validation)%Z in Hres by lia.
    rewrite Z.eqb_refl in Hres. cbn [negb] in Hres. now rewrite Hres.
  - rewrite Nat.min_l in Hres by lia.
    assert (E : (Z.of_nat (length crops) =? nb_training + nb_validation)%Z = false)
      by (apply Z.eqb_neq; lia).
    rewrite E in Hres. cbn [negb] in Hres. now rewrite Hres.
Qed.

(** X10.  A run of [create_imagenet] that builds the sets for no crop
    at all ([nb_training + nb_validation = 0]) has no room for the
    first crop: if an image of the listing gives a crop, the
    assignment of line 94 raises [IndexError] and nothing is written;
    if none does, the run returns after saving two arrays without
    crops. *)
Theorem create_imagenet_no_room
    folder width_crop nb_training nb_validation
    path_to_training path_to_validation path_to_tar (st : state World) :
  isfile env (world st) path_to_training && isfile env (world st) path_to_validation = false ->
  (0 <= width_crop)%Z -> (nb_training + nb_validation = 0)%Z ->
  let w := world_after_untar env folder path_to_tar (world st) in
  let names := imagenet_names env w folder in
  let crops := crops_of env folder width_crop nb_training names 0 w in
  let res := create_imagenet env folder width_crop nb_training nb_validation
                             path_to_training path_to_validation path_to_tar st in
  (crops <> [] ->
   fst res = Raise (IndexError "index is out of bounds for axis 0")
   /\ exists evs, trace (snd res) = trace st ++ evs /\ quiet evs)
  /\
  (crops = [] ->
   fst res = Ok tt
   /\ exists earlier training_data validation_data,
        trace (snd res)
        = trace st ++ earlier ++ [NpySaved path_to_training training_data;
                                  NpySaved path_to_validation validation_data]
        /\ quiet earlier
        /\ planes training_data = [] /\ planes validation_data = []).
Proof.
  intros Hbuild Hwidth Hzero w names crops res.
  destruct (imagenet_loop_no_room env folder width_crop nb_training names
              (MkState w (trace st ++ untar_events folder path_to_tar)))
    as (st2 & evs & Hloop & Htrace & Hq).
  cbn [world trace] in Hloop, Htrace. fold crops in Hloop.
  assert (Hres : res = build_imagenet env folder width_crop nb_training nb_validation
                         path_to_training path_to_validation path_to_tar st)
    by apply (create_imagenet_builds env _ _ _ _ _ _ _ _ Hbuild).
  clearbody res. rewrite build_imagenet_unfolded in Hres.
  fold w names in Hres. rewrite Hzero in Hres.
  destruct (Z.ltb_spec width_crop 0) as [Hneg | _]; [lia |].
  change (0 <? 0)%Z with false in Hres. cbn [orb] in Hres.
  change (Z.to_nat 0) with 0 in Hres.
  unfold zeros_stack in Hres. cbn [repeat] in Hres. rewrite Hloop in Hres.
  assert (Huntar : quiet (untar_events folder path_to_tar)).
  { unfold untar_events. destruct (truthy path_to_tar); repeat constructor. }
  split.
  - intros Hsome. destruct crops as [| c crops']; [contradiction |].
    cbv beta iota in Hres. rewrite Hres. cbn [fst snd]. split; [reflexivity |].
    exists (untar_events folder path_to_tar ++ evs).
    split; [rewrite Htrace; now rewrite <- app_assoc |].
    apply Forall_app. now split.
  - intros Hnone. rewrite Hnone in Hres. cbv beta iota in Hres.
    cbn [negb Z.eqb] in Hres. rewrite Hres. cbn [fst snd trace]. split; [reflexivity |].
    eexists (untar_events folder path_to_tar ++ evs), _, _.
    split; [rewrite Htrace; rewrite <- !app_assoc; reflexivity |].
    split; [apply Forall_app; now split |].
    unfold slice_stack, py_slice. cbn [planes].
    rewrite !drop_nil, !take_nil. split; reflexivity.
Qed.

End ImagenetMore.

Lemma toy_keeps_files listing shapes : keeps_files (toy_env listing shapes).
Proof.
  unfold keeps_files. cbn [toy_env isfile numpy_save pickle_dump existing existsb].
  repeat split; intros.
  - now rewrite String.eqb_refl.
  - now rewrite String.eqb_refl.
  - rewrite H. apply orb_true_r.
  - rewrite H. apply orb_true_r.
Qed.

(** X1 at a listing of one image: the run raises [RuntimeError] and
    leaves the world as it was. *)
Lemma create_bsds_failure_writes_nothing_witness :
  world (snd (create_bsds one_small_image "url" "d" "bsds.npy" "rot.pkl" "" fresh))
  = world fresh
  /\ exists evs,
       trace (snd (create_bsds one_small_image "url" "d" "bsds.npy" "rot.pkl" "" fresh))
       = trace fresh ++ evs
       /\ quiet evs.
Proof.
  exact (create_bsds_failure_writes_nothing one_small_image
           "url" "d" "bsds.npy" "rot.pkl" "" fresh
           (RuntimeError "The number of BSDS RGB images to be read is not 100.")
           eq_refl eq_refl).
Defined.

Lemma hundred_images_built :
  fst (create_bsds hundred_images "url" "d" "bsds.npy" "rot.pkl" "" fresh) = Ok tt.
Proof. vm_compute. reflexivity. Qed.

(** X2 at a folder of 100 usable images. *)
Lemma create_bsds_trace_of_success_witness :
  exists reference_uint8 list_rotation,
    snd (create_bsds hundred_images "url" "d" "bsds.npy" "rot.pkl" "" fresh)
    = MkState
        (ToyWorld ["rot.pkl"; "bsds.npy"] 0)
        (map (read_event "d/BSDS300/images/test/") (repeat "l.jpg" 99 ++ ["p.jpg"])
         ++ [NpySaved "bsds.npy" reference_uint8;
             PickleDumped "rot.pkl" list_rotation 2]).
Proof.
  exact (create_bsds_trace_of_success hundred_images
           "url" "d" "bsds.npy" "rot.pkl" "" fresh eq_refl hundred_images_built).
Defined.

(** X3 at a folder whose third image is 100x100: the run raises the
    [ValueError] that names it after reading three images. *)
Lemma create_bsds_raises_first_unusable_witness :
  create_bsds third_image_square "url" "d" "bsds.npy" "rot.pkl" "" fresh
  = (Raise (ValueError (quoted "d/BSDS300/images/test/w.jpg"
                        ++ " is neither 321x481x3 nor 481x321x3.")%string),
     MkState (world fresh)
             (map (read_event "d/BSDS300/images/test/") ["l.jpg"; "l.jpg"; "w.jpg"])).
Proof.
  apply (create_bsds_raises_first_unusable third_image_square
           "url" "d" "bsds.npy" "rot.pkl" "" fresh 2 "w.jpg"
           (ValueError (quoted "d/BSDS300/images/test/w.jpg"
                        ++ " is neither 321x481x3 nor 481x321x3.")%string)).
  - reflexivity.
  - reflexivity.
  - reflexivity.
  - reflexivity.
  - intros j n Hj Hn. destruct j as [| [| j]].
    + inversion Hn. reflexivity.
    + inversion Hn. reflexivity.
    + lia.
Defined.

(** X4 at a folder of 100 usable images: the second run only prints. *)
Lemma create_bsds_rerun_only_prints_witness :
  exists lines,
    create_bsds hundred_images "url" "d" "bsds.npy" "rot.pkl" ""
      (snd (create_bsds hundred_images "url" "d" "bsds.npy" "rot.pkl" "" fresh))
    = (Ok tt,
       MkState
         (world (snd (create_bsds hundred_images "url" "d" "bsds.npy" "rot.pkl" "" fresh)))
         (trace (snd (create_bsds hundred_images "url" "d" "bsds.npy" "rot.pkl" "" fresh))
          ++ map Printed lines)).
Proof.
  exact (create_bsds_rerun_only_prints hundred_images
           "url" "d" "bsds.npy" "rot.pkl" "" fresh
           (toy_keeps_files _ _) hundred_images_built).
Defined.

(** X5 at a crop width of -1: the run raises before it reads the
    folder. *)
Lemma create_imagenet_negative_size_witness :
  create_imagenet five_files "data" (-1) 2 1 "tr.npy" "va.npy" "" fresh
  = (Raise (ValueError "negative dimensions are not allowed"), fresh).
Proof.
  apply (create_imagenet_negative_size five_files "data" (-1) 2 1 "tr.npy" "va.npy" "" fresh).
  - reflexivity.
  - right. lia.
Defined.

Lemma five_files_built :
  fst (create_imagenet five_files "data" 16 2 1 "tr.npy" "va.npy" "" fresh) = Ok tt.
Proof. vm_compute. reflexivity. Qed.

(** X6 at a folder of five files: the second run only prints. *)
Lemma create_imagenet_rerun_only_prints_witness :
  exists lines,
    create_imagenet five_files "data" 16 2 1 "tr.npy" "va.npy" ""
      (snd (create_imagenet five_files "data" 16 2 1 "tr.npy" "va.npy" "" fresh))
    = (Ok tt,
       MkState
         (world (snd (create_imagenet five_files "data" 16 2 1 "tr.npy" "va.npy" "" fresh)))
         (trace (snd (create_imagenet five_files "data" 16 2 1 "tr.npy" "va.npy" "" fresh))
          ++ map Printed lines)).
Proof.
  exact (create_imagenet_rerun_only_prints five_files "data" 16 2 1 "tr.npy" "va.npy" "" fresh
           (toy_keeps_files _ _) five_files_built).
Defined.

(** X7 at a folder of five files, for crops of width 16. *)
Lemma create_imagenet_saves_boxes_witness :
  exists earlier training_data validation_data,
    trace (snd (create_imagenet five_files "data" 16 2 1 "tr.npy" "va.npy" "" fresh))
    = trace fresh ++ earlier ++ [NpySaved "tr.npy" training_data;
                                 NpySaved "va.npy" validation_data]
    /\ quiet earlier
    /\ well_shaped training_data
    /\ shape2_of_planes training_data = (16, 16)
    /\ well_shaped validation_data
    /\ shape2_of_planes validation_data = (16, 16).
Proof.
  exact (create_imagenet_saves_boxes five_files "data" 16 2 1 "tr.npy" "va.npy" "" fresh
           eq_refl five_files_built).
Defined.

(** X8 at a folder of five files whose second file is not an image,
    for three crops: the run reads the first [k] files, where four
    files are the fewest that give three crops. *)
Lemma create_imagenet_reads_until_full_witness :
  exists k,
    k <= 5
    /\ crops_of five_files "data" 16 2
         (take k ["a.png"; "bad.png"; "b.png"; "c.png"; "d.png"]) 0 (world fresh)
       = take 3 (crops_of five_files "data" 16 2
                   ["a.png"; "bad.png"; "b.png"; "c.png"; "d.png"] 0 (world fresh))
    /\ (forall j, j < k ->
          length (crops_of five_files "data" 16 2
                    (take j ["a.png"; "bad.png"; "b.png"; "c.png"; "d.png"]) 0 (world fresh))
          < 3)
    /\ image_reads
         (trace (snd (create_imagenet five_files "data" 16 2 1 "tr.npy" "va.npy" "" fresh)))
       = map (path_join "data") (take k ["a.png"; "bad.png"; "b.png"; "c.png"; "d.png"])
    /\ length (printed
                 (trace (snd (create_imagenet five_files "data" 16 2 1
                                              "tr.npy" "va.npy" "" fresh))))
       = 2 * (k - 3).
Proof.
  destruct (create_imagenet_reads_until_full five_files "data" 16 2 1
              "tr.npy" "va.npy" "" fresh
              eq_refl ltac:(lia) ltac:(lia) (toy_crop_shape _ _ 16))
    as (k & Hk & Hcrops & _ & Hmin & Hreads & Hprints).
  exists k. repeat split; assumption.
Defined.

(** X9 at a folder of five files that give four crops, for five
    crops: the run raises the [RuntimeError]. *)
Lemma create_imagenet_returns_or_runtime_error_witness :
  fst (create_imagenet five_files "data" 16 4 1 "tr.npy" "va.npy" "" fresh)
  = Raise (RuntimeError
             ("There are not enough ImageNet RGB images at "
              ++ quoted "data"
              ++ " to create the ImageNet training and validation sets.")%string).
Proof.
  exact (create_imagenet_returns_or_runtime_error five_files "data" 16 4 1
           "tr.npy" "va.npy" "" fresh
           eq_refl ltac:(lia) ltac:(lia) (toy_crop_shape _ _ 16)).
Defined.

(** X10 at a folder of five files, for no crop at all: the first
    image gives a crop and the run raises [IndexError]. *)
Lemma create_imagenet_no_room_witness :
  fst (create_imagenet five_files "data" 16 0 0 "tr.npy" "va.npy" "" fresh)
  = Raise (IndexError "index is out of bounds for axis 0")
  /\ exists evs,
       trace (snd (create_imagenet five_files "data" 16 0 0 "tr.npy" "va.npy" "" fresh))
       = trace fresh ++ evs
       /\ quiet evs.
Proof.
  destruct (create_imagenet_no_room five_files "data" 16 0 0 "tr.npy" "va.npy" "" fresh
              eq_refl ltac:(lia) eq_refl) as [Hsome _].
  apply Hsome. vm_compute. discriminate.
Defined.

End DatasetsMore.
